(** * AirQualityPredict: the feature pipeline and the inference adapter

    A shallow embedding of [config.py], [preprocess.py], [train.py] and
    [app.py].  Python floats are read as exact rationals ([Q]); the missing
    value of a pandas float column is the separate cell [NaN].  A pandas
    [DataFrame] is an ordered list of named, typed columns. *)

From Stdlib Require Import ZArith QArith Qround Qminmax Lia Lqa Sorted.
From stdpp Require Import base list strings sorting.

Local Open Scope Z_scope.

(** ** Cells, columns and frames *)

(** One entry of a float64 column. *)
Inductive cell : Type :=
  | NaN
  | Num (q : Q).

Definition isna (c : cell) : bool :=
  match c with NaN => true | Num _ => false end.

Abbreviation Series := (list cell).

(** A column carries its dtype: float64 (with NaN), an integer dtype, or
    datetime64 at day resolution (days since 1970-01-01). *)
Inductive Column : Type :=
  | Float64 (s : Series)
  | Int64 (l : list Z)
  | Datetime (l : list Z).

Definition col_len (c : Column) : nat :=
  match c with
  | Float64 s => length s
  | Int64 l => length l
  | Datetime l => length l
  end.

(** Is row [i] of the column missing?  Only float cells can be. *)
Definition col_isna (c : Column) (i : nat) : bool :=
  match c with
  | Float64 s => match s !! i with Some x => isna x | None => true end
  | Int64 l => match l !! i with Some _ => false | None => true end
  | Datetime l => match l !! i with Some _ => false | None => true end
  end.

(** The value of row [i] as the float the regression model is fed. *)
Definition col_float (c : Column) (i : nat) : option cell :=
  match c with
  | Float64 s => s !! i
  | Int64 l => (fun z => Num (inject_Z z)) <$> l !! i
  | Datetime _ => None
  end.

(** Positional selection of rows [rows] of a column. *)
Definition pick {A : Type} (rows : list nat) (l : list A) : list A :=
  omap (fun i => l !! i) rows.

Definition col_pick (rows : list nat) (c : Column) : Column :=
  match c with
  | Float64 s => Float64 (pick rows s)
  | Int64 l => Int64 (pick rows l)
  | Datetime l => Datetime (pick rows l)
  end.

Definition col_take (k : nat) (c : Column) : Column :=
  match c with
  | Float64 s => Float64 (take k s)
  | Int64 l => Int64 (take k l)
  | Datetime l => Datetime (take k l)
  end.

Definition col_drop (k : nat) (c : Column) : Column :=
  match c with
  | Float64 s => Float64 (drop k s)
  | Int64 l => Int64 (drop k l)
  | Datetime l => Datetime (drop k l)
  end.

Module DataFrame.

Definition t := list (string * Column).

(** [df[name]]; [None] stands for the KeyError. *)
Fixpoint get (name : string) (df : t) : option Column :=
  match df with
  | [] => None
  | (n, c) :: rest => if String.eqb n name then Some c else get name rest
  end.

(** [df[name] = c]: an existing column is replaced where it stands, a new
    one is appended after the others. *)
Fixpoint set (name : string) (c : Column) (df : t) : t :=
  match df with
  | [] => [(name, c)]
  | (n, c') :: rest =>
      if String.eqb n name then (n, c) :: rest else (n, c') :: set name c rest
  end.

(** [df[names]]: the named columns, in the order of [names]. *)
Fixpoint select (names : list string) (df : t) : option t :=
  match names with
  | [] => Some []
  | n :: rest =>
      match get n df, select rest df with
      | Some c, Some cols => Some ((n, c) :: cols)
      | _, _ => None
      end
  end.

(** [len(df)]. *)
Definition nrows (df : t) : nat :=
  match df with
  | [] => O
  | (_, c) :: _ => col_len c
  end.

Definition row_complete (df : t) (i : nat) : bool :=
  forallb (fun nc => negb (col_isna (snd nc) i)) df.

(** The positions of the rows without a missing value. *)
Definition complete_rows (df : t) : list nat :=
  filter (fun i => row_complete df i = true) (seq 0 (nrows df)).

Definition take_rows (rows : list nat) (df : t) : t :=
  map (fun nc => (fst nc, col_pick rows (snd nc))) df.

(** [df.dropna().reset_index(drop=True)]: the index of the result is
    positional again, which is what a list is. *)
Definition dropna (df : t) : t := take_rows (complete_rows df) df.

(** [df.iloc[:k]] and [df.iloc[k:]] for [0 <= k]. *)
Definition iloc_to (k : nat) (df : t) : t :=
  map (fun nc => (fst nc, col_take k (snd nc))) df.

Definition iloc_from (k : nat) (df : t) : t :=
  map (fun nc => (fst nc, col_drop k (snd nc))) df.

(** Row [i] as the vector of floats handed to the model, in column order. *)
Definition feature_row (df : t) (i : nat) : option (list cell) :=
  mapM (fun nc => col_float (snd nc) i) df.

Definition get_float (name : string) (df : t) : option Series :=
  match get name df with
  | Some (Float64 s) => Some s
  | _ => None
  end.

Definition get_dates (name : string) (df : t) : option (list Z) :=
  match get name df with
  | Some (Datetime l) => Some l
  | _ => None
  end.

End DataFrame.

(** ** config.py *)

Definition CITY : string := "Skopje".
Definition TEST_SIZE : Q := 0.2%Q.

Definition FEATURE_COLUMNS : list string :=
  [ "pm25"; "pm25_lag_1"; "pm25_lag_2"; "pm25_lag_7";
    "pm25_rolling_3"; "pm25_rolling_7"; "day_of_week"; "month" ]%string.

Definition TARGET_COLUMN : string := "pm25_next_day".

(** ** Python built-ins on numbers *)

Module Py.

(** Round half to even, the rule of numpy's [rint] and of Python's [round]. *)
Definition rint (q : Q) : Z :=
  let f := Qfloor q in
  match Qcompare (q - inject_Z f) (1 # 2) with
  | Lt => f
  | Gt => f + 1
  | Eq => if Z.even f then f else f + 1
  end.

(** [round(q, ndigits)], in lowest terms. *)
Definition round (q : Q) (ndigits : nat) : Q :=
  let scale := inject_Z (10 ^ Z.of_nat ndigits) in
  Qred (inject_Z (rint (q * scale)) / scale).

(** [max(a, b)]: the first argument unless the second is strictly larger. *)
Definition max (a b : Q) : Q :=
  if Qle_bool b a then a else b.

(** [int(q)]: truncation toward zero. *)
Definition int (q : Q) : Z := Z.quot (Qnum q) (Zpos (Qden q)).

End Py.

(** ** pandas: shift, rolling mean, round, datetime accessors *)

(** [s.shift(periods)]: the values move [periods] rows down (up when
    negative), the length is kept and the vacated rows are NaN. *)
Definition shift (periods : Z) (s : Series) : Series :=
  if 0 <=? periods
  then take (length s) (replicate (Z.to_nat periods) NaN ++ s)
  else drop (Z.to_nat (- periods)) s
       ++ replicate (Nat.min (Z.to_nat (- periods)) (length s)) NaN.

(** The rows a window of [w] rows ending at row [i] covers. *)
Definition window (w : nat) (s : Series) (i : nat) : Series :=
  drop (S i - w) (take (S i) s).

(** The values of a series, its NaN cells skipped. *)
Fixpoint observations (s : Series) : list Q :=
  match s with
  | [] => []
  | NaN :: rest => observations rest
  | Num q :: rest => q :: observations rest
  end.

Definition Qsum (l : list Q) : Q := fold_left Qplus l 0%Q.

Definition mean (l : list Q) : Q :=
  (Qsum l / inject_Z (Z.of_nat (length l)))%Q.

(** [s.rolling(window=w).mean()]: [min_periods] defaults to [w], so a row
    has a value only when its window holds [w] observed values. *)
Definition rolling_mean (w : nat) (s : Series) : Series :=
  map (fun i =>
         let obs := observations (window w s i) in
         if (length obs <? w)%nat then NaN else Num (mean obs))
      (seq 0 (length s)).

(** [s.round(ndigits)]. *)
Definition series_round (ndigits : nat) (s : Series) : Series :=
  map (fun c => match c with NaN => NaN | Num q => Num (Py.round q ndigits) end) s.

(** [.dt.dayofweek]: Monday is 0; 1970-01-01 was a Thursday. *)
Definition dayofweek (days : Z) : Z := (days + 3) mod 7.

(** Proleptic Gregorian date (year, month, day) of a day count, by
    400-year eras that start on a 1st of March. *)
Definition era (days : Z) : Z := (days + 719468) / 146097.

Definition day_of_era (days : Z) : Z := (days + 719468) mod 146097.

Definition year_of_era (doe : Z) : Z :=
  (doe - doe / 1460 + doe / 36524 - doe / 146096) / 365.

Definition day_of_year (doe : Z) : Z :=
  let yoe := year_of_era doe in
  doe - (365 * yoe + yoe / 4 - yoe / 100).

Definition month_of (doy : Z) : Z :=
  let mp := (5 * doy + 2) / 153 in
  if mp <? 10 then mp + 3 else mp - 9.

Definition day_of (doy : Z) : Z :=
  let mp := (5 * doy + 2) / 153 in
  doy - (153 * mp + 2) / 5 + 1.

Definition civil_of_era (e doe : Z) : Z * Z * Z :=
  let doy := day_of_year doe in
  let m := month_of doy in
  (year_of_era doe + e * 400 + (if m <=? 2 then 1 else 0), m, day_of doy).

Definition civil_of_days (days : Z) : Z * Z * Z :=
  civil_of_era (era days) (day_of_era days).

(** [.dt.month]: 1 to 12. *)
Definition month (days : Z) : Z := snd (fst (civil_of_days days)).

(** The calendar itself, to compare the day counts with: leap years,
    month lengths and the date that follows a date. *)
Definition is_leap (y : Z) : bool :=
  (y mod 4 =? 0) && (negb (y mod 100 =? 0) || (y mod 400 =? 0)).

Definition days_in_month (y m : Z) : Z :=
  if m =? 2 then (if is_leap y then 29 else 28)
  else if (m =? 4) || (m =? 6) || (m =? 9) || (m =? 11) then 30
  else 31.

Definition next_civil (c : Z * Z * Z) : Z * Z * Z :=
  let '(y, m, d) := c in
  if d <? days_in_month y m then (y, m, d + 1)
  else if m <? 12 then (y, m + 1, 1)
  else (y + 1, 1, 1).

(** ** preprocess.py *)

Definition add_lag_features (df : DataFrame.t) : option DataFrame.t :=
  pm25 ← DataFrame.get_float "pm25" df;
  let df := DataFrame.set "pm25_lag_1" (Float64 (shift 1 pm25)) df in
  pm25 ← DataFrame.get_float "pm25" df;
  let df := DataFrame.set "pm25_lag_2" (Float64 (shift 2 pm25)) df in
  pm25 ← DataFrame.get_float "pm25" df;
  let df := DataFrame.set "pm25_lag_7" (Float64 (shift 7 pm25)) df in
  Some df.

Definition add_rolling_averages (df : DataFrame.t) : option DataFrame.t :=
  pm25 ← DataFrame.get_float "pm25" df;
  let df := DataFrame.set "pm25_rolling_3"
              (Float64 (series_round 1 (rolling_mean 3 pm25))) df in
  pm25 ← DataFrame.get_float "pm25" df;
  let df := DataFrame.set "pm25_rolling_7"
              (Float64 (series_round 1 (rolling_mean 7 pm25))) df in
  Some df.

Definition add_calendar_features (df : DataFrame.t) : option DataFrame.t :=
  date ← DataFrame.get_dates "date" df;
  let tomorrow := map (fun d => d + 1) date in
  let df := DataFrame.set "day_of_week" (Int64 (map dayofweek tomorrow)) df in
  let df := DataFrame.set "month" (Int64 (map month tomorrow)) df in
  Some df.

Definition add_target (df : DataFrame.t) : option DataFrame.t :=
  pm25 ← DataFrame.get_float "pm25" df;
  Some (DataFrame.set TARGET_COLUMN (Float64 (shift (-1) pm25)) df).

(** Writing the CSV file is left out; the frame returned is the one saved. *)
Definition clean_and_save (df : DataFrame.t) : option DataFrame.t :=
  let columns_to_keep := FEATURE_COLUMNS ++ [TARGET_COLUMN] in
  df ← DataFrame.select columns_to_keep df;
  Some (DataFrame.dropna df).

(** The frame [aggregate_daily] returns: a date and a pm25 per daily record. *)
Definition daily_frame (date : list Z) (pm25 : Series) : DataFrame.t :=
  [("date"%string, Datetime date); ("pm25"%string, Float64 pm25)].

(** The feature steps of the main block, up to [add_target]. *)
Definition feature_table (df : DataFrame.t) : option DataFrame.t :=
  df ← add_lag_features df;
  df ← add_rolling_averages df;
  df ← add_calendar_features df;
  add_target df.

(** The main block of preprocess.py after [aggregate_daily]. *)
Definition preprocess (df : DataFrame.t) : option DataFrame.t :=
  df ← feature_table df;
  clean_and_save df.

(** ** train.py *)

(** [load_data] on the frame the CSV file holds. *)
Definition load_data (df : DataFrame.t) : option (DataFrame.t * Column) :=
  X ← DataFrame.select FEATURE_COLUMNS df;
  y ← DataFrame.get TARGET_COLUMN df;
  Some (X, y).

Definition split_idx (n : nat) : nat :=
  Z.to_nat (Py.int (inject_Z (Z.of_nat n) * (1 - TEST_SIZE))).

Definition chronological_split (X : DataFrame.t) (y : Column)
  : DataFrame.t * DataFrame.t * Column * Column :=
  let split_idx := split_idx (DataFrame.nrows X) in
  let X_train := DataFrame.iloc_to split_idx X in
  let X_test := DataFrame.iloc_from split_idx X in
  let y_train := col_take split_idx y in
  let y_test := col_drop split_idx y in
  (X_train, X_test, y_train, y_test).

(** ** app.py *)

(** The loaded regressor, as the inference path uses it: one row of
    features in, one value out ([float(model.predict(features)[0])]). *)
Definition Model := list Q -> Q.





Record PredictRequest : Type := {
  pm25 : Q;
  pm25_lag_1 : Q;
  pm25_lag_2 : Q;
  pm25_lag_7 : Q;
  pm25_rolling_3 : Q;
  pm25_rolling_7 : Q;
  day_of_week : Z;
  month_ : Z;
}.

Record PredictResponse : Type := {
  city : string;
  predicted_pm25 : Q;
  aqi_category : string;
  unit_ : string;
}.

Record HTTPException : Type := {
  status_code : Z;
  detail : string;
}.


Definition pm25_to_aqi_category (pm25 : Q) : string :=
  if Qle_bool pm25 12.0 then "Good"
  else if Qle_bool pm25 35.4 then "Moderate"
  else if Qle_bool pm25 55.4 then "Unhealthy for Sensitive Groups"
  else if Qle_bool pm25 150.4 then "Unhealthy"
  else if Qle_bool pm25 250.4 then "Very Unhealthy"
  else "Hazardous".


(** The array [predict] hands to the model. *)
Definition features (request : PredictRequest) : list Q :=
  [ pm25 request;
    pm25_lag_1 request;
    pm25_lag_2 request;
    pm25_lag_7 request;
    pm25_rolling_3 request;
    pm25_rolling_7 request;
    inject_Z (day_of_week request);
    inject_Z (month_ request) ].

Definition predict (model : option Model) (request : PredictRequest)
  : HTTPException + PredictResponse :=
  match model with
  | None =>
      inl {| status_code := 503;
             detail := "Model not loaded. Run train.py first." |}
  | Some model =>
      let prediction := model (features request) in
      let prediction := Py.round (Py.max prediction 0) 1 in
      inr {| city := CITY;
             predicted_pm25 := prediction;
             aqi_category := pm25_to_aqi_category prediction;
             unit_ := "µg/m³" |}
  end.

(** The severity order of the categories, lowest first. *)
Definition AQI_CATEGORIES : list string :=
  [ "Good"; "Moderate"; "Unhealthy for Sensitive Groups";
    "Unhealthy"; "Very Unhealthy"; "Hazardous" ]%string.

Fixpoint index_of (x : string) (l : list string) : nat :=
  match l with
  | [] => O
  | y :: rest => if String.eqb y x then O else S (index_of x rest)
  end.

Definition severity (category : string) : nat := index_of category AQI_CATEGORIES.

(** The observation a caller reads off row [i] of a frame, field by name. *)
Definition float_at (df : DataFrame.t) (name : string) (i : nat) : option Q :=
  match DataFrame.get name df with
  | Some (Float64 s) => match s !! i with Some (Num q) => Some q | _ => None end
  | _ => None
  end.

Definition int_at (df : DataFrame.t) (name : string) (i : nat) : option Z :=
  match DataFrame.get name df with
  | Some (Int64 l) => l !! i
  | _ => None
  end.

Definition observation (df : DataFrame.t) (i : nat) : option PredictRequest :=
  a ← float_at df "pm25" i;
  b ← float_at df "pm25_lag_1" i;
  c ← float_at df "pm25_lag_2" i;
  d ← float_at df "pm25_lag_7" i;
  e ← float_at df "pm25_rolling_3" i;
  f ← float_at df "pm25_rolling_7" i;
  g ← int_at df "day_of_week" i;
  h ← int_at df "month" i;
  Some {| pm25 := a; pm25_lag_1 := b; pm25_lag_2 := c; pm25_lag_7 := d;
          pm25_rolling_3 := e; pm25_rolling_7 := f;
          day_of_week := g; month_ := h |}.

(** The lag column of [k] rows, by name. *)
Definition lag_name (k : nat) : string :=
  match k with
  | 1%nat => "pm25_lag_1"
  | 2%nat => "pm25_lag_2"
  | _ => "pm25_lag_7"
  end.

(** The rolling column of window [w], by name. *)
Definition rolling_name (w : nat) : string :=
  match w with
  | 3%nat => "pm25_rolling_3"
  | _ => "pm25_rolling_7"
  end.

(** ** A ten-day series used to run the definitions *)

(** 2024-02-25 (a Sunday) to 2024-03-05. *)
Definition sample_dates : list Z :=
  [19778; 19779; 19780; 19781; 19782; 19783; 19784; 19785; 19786; 19787].

Definition sample_pm25 : Series :=
  [ Num 45.0; Num 38.0; Num 42.0; Num 55.0; Num 61.3;
    Num 12.0; Num 12.1; Num 35.4; Num 35.5; Num 20.0 ]%Q.

Definition sample_daily : DataFrame.t := daily_frame sample_dates sample_pm25.

(** Every column of a frame has the length of the frame. *)
Definition frame_wf (df : DataFrame.t) : Prop :=
  Forall (fun nc => col_len (snd nc) = DataFrame.nrows df) df.

(** The table [feature_table] builds from a daily frame. *)
Definition full_table (date : list Z) (s : Series) : DataFrame.t :=
  [ ("date"%string, Datetime date);
    ("pm25"%string, Float64 s);
    ("pm25_lag_1"%string, Float64 (shift 1 s));
    ("pm25_lag_2"%string, Float64 (shift 2 s));
    ("pm25_lag_7"%string, Float64 (shift 7 s));
    ("pm25_rolling_3"%string, Float64 (series_round 1 (rolling_mean 3 s)));
    ("pm25_rolling_7"%string, Float64 (series_round 1 (rolling_mean 7 s)));
    ("day_of_week"%string, Int64 (map dayofweek (map (fun d => d + 1) date)));
    ("month"%string, Int64 (map month (map (fun d => d + 1) date)));
    ("pm25_next_day"%string, Float64 (shift (-1) s)) ].

(** The columns [clean_and_save] keeps of it, in their order. *)
Definition kept_table (date : list Z) (s : Series) : DataFrame.t :=
  [ ("pm25"%string, Float64 s);
    ("pm25_lag_1"%string, Float64 (shift 1 s));
    ("pm25_lag_2"%string, Float64 (shift 2 s));
    ("pm25_lag_7"%string, Float64 (shift 7 s));
    ("pm25_rolling_3"%string, Float64 (series_round 1 (rolling_mean 3 s)));
    ("pm25_rolling_7"%string, Float64 (series_round 1 (rolling_mean 7 s)));
    ("day_of_week"%string, Int64 (map dayofweek (map (fun d => d + 1) date)));
    ("month"%string, Int64 (map month (map (fun d => d + 1) date)));
    ("pm25_next_day"%string, Float64 (shift (-1) s)) ].

(** The processed frame of the sample, and the request a caller would
    make from its first row. *)
Definition sample_processed : DataFrame.t :=
  default [] (preprocess sample_daily).

Definition sample_request : PredictRequest :=
  {| pm25 := 35.4; pm25_lag_1 := 12.1; pm25_lag_2 := 12.0;
     pm25_lag_7 := 45.0; pm25_rolling_3 := 99 # 5; pm25_rolling_7 := 73 # 2;
     day_of_week := 0; month_ := 3 |}.

(** ** The calendar, year by year *)

(** First day of year [y] of an era, and the length of that year: the
    years of an era start on the 1st of March, so that the leap day is
    their last day. *)
Definition year_start (y : Z) : Z := 365 * y + y / 4 - y / 100.

Definition year_len (y : Z) : Z :=
  if y =? 399 then 366 else year_start (y + 1) - year_start y.

Definition civil_eqb (a b : Z * Z * Z) : bool :=
  let '(y, m, d) := a in
  let '(y', m', d') := b in
  (y =? y') && (m =? m') && (d =? d').

(** Year [y] of an era starts and ends where [year_of_era] says, and has
    366 days exactly when the civil year of its February is a leap year. *)
Definition year_ok (y : Z) : bool :=
  (year_of_era (year_start y) =? y)
  && (year_of_era (year_start y + year_len y - 1) =? y)
  && (year_len y =? (if is_leap (y + 1) then 366 else 365)).

(** The date of day [doy] of year [y] of era 0. *)
Definition civil_of_year (y doy : Z) : Z * Z * Z :=
  let m := month_of doy in
  (y + (if m <=? 2 then 1 else 0), m, day_of doy).

(** Day [doy] of year [y] is followed by the next date of the calendar. *)
Definition day_ok (y doy : Z) : bool :=
  civil_eqb
    (if doy + 1 <? (if is_leap (y + 1) then 366 else 365)
     then civil_of_year y (doy + 1)
     else civil_of_year (y + 1) 0)
    (next_civil (civil_of_year y doy)).

Fixpoint all_from (n : nat) (z : Z) (p : Z -> bool) : bool :=
  match n with
  | O => true
  | S k => p z && all_from k (z + 1) p
  end.

(** A date moved by [e] years. *)
Definition add_years (e : Z) (c : Z * Z * Z) : Z * Z * Z :=
  let '(y, m, d) := c in (y + e, m, d).

(** ** Request validation *)

(** The field constraints of [PredictRequest] ([ge=0]; [ge], [le] on the
    two calendar fields), as the request validation applies them. *)
Definition request_valid (r : PredictRequest) : bool :=
  Qle_bool 0 (pm25 r)
  && Qle_bool 0 (pm25_lag_1 r)
  && Qle_bool 0 (pm25_lag_2 r)
  && Qle_bool 0 (pm25_lag_7 r)
  && Qle_bool 0 (pm25_rolling_3 r)
  && Qle_bool 0 (pm25_rolling_7 r)
  && (0 <=? day_of_week r) && (day_of_week r <=? 6)
  && (1 <=? month_ r) && (month_ r <=? 12).

(** A cell that is missing or holds a value that is not negative. *)
Definition cell_nonneg (c : cell) : Prop :=
  match c with
  | NaN => True
  | Num q => (0 <= q)%Q
  end.

(** ** preprocess.py: aggregate_daily *)

(** One raw measurement: its time stamp, in seconds since 1970-01-01 UTC,
    and its value; location and unit play no part in the pipeline. *)
Record Measurement : Type := {
  datetime : Z;
  value : cell;
}.

(** [.dt.date]: the day a time stamp falls on. *)
Definition dt_date (timestamp : Z) : Z := timestamp / 86400.

(** The keys of a groupby: each day once, in ascending order. *)
Fixpoint insert_key (d : Z) (keys : list Z) : list Z :=
  match keys with
  | [] => [d]
  | k :: rest =>
      if d <? k then d :: keys
      else if d =? k then keys
      else k :: insert_key d rest
  end.

Definition group_keys (raw : list Measurement) : list Z :=
  fold_right (fun m keys => insert_key (dt_date (datetime m)) keys) [] raw.

(** The values of one group, in the order of the rows. *)
Definition group_values (d : Z) (raw : list Measurement) : Series :=
  map value (List.filter (fun m => dt_date (datetime m) =? d) raw).

(** [.mean()] of a group: NaN cells are skipped, and a group without any
    value has the mean NaN.  The mean is the exact one: pandas adds the
    values of a group in binary64, row after row, so that its mean can
    differ from this one in the last bit, and the rounded pm25 by one
    tenth where the exact mean lies half-way between two tenths.  Which
    days have a record, and which records hold a value, is not affected. *)
Definition group_mean (d : Z) (raw : list Measurement) : cell :=
  match observations (group_values d raw) with
  | [] => NaN
  | obs => Num (mean obs)
  end.

Definition aggregate_daily (raw : list Measurement) : DataFrame.t :=
  let keys := group_keys raw in
  daily_frame keys (series_round 1 (map (fun d => group_mean d raw) keys)).

(** Four measurements on two days, out of order, one without a value. *)
Definition sample_raw : list Measurement :=
  [ {| datetime := 19779 * 86400 + 3600; value := Num 38.0 |};
    {| datetime := 19778 * 86400 + 7200; value := Num 44.0 |};
    {| datetime := 19779 * 86400 + 82800; value := NaN |};
    {| datetime := 19778 * 86400 + 86399; value := Num 46.0 |} ].

(** ** collect_data.py *)

(** numpy's [maximum], [minimum] and [clip]. *)
Definition maximum (a b : Q) : Q := if Qle_bool a b then b else a.

Definition minimum (a b : Q) : Q := if Qle_bool a b then a else b.

Definition clip (a a_min a_max : Q) : Q := minimum (maximum a a_min) a_max.

(** The value [generate_sample_data] stores for a simulated
    concentration: clipped to [1, 350], then rounded to one decimal. *)
Definition sample_value (pm25 : Q) : Q := Py.round (clip pm25 1 350) 1.

(** What one request of [fetch_from_openaq] comes back with: an HTTP
    error status, or a page of records with the total the API announces
    in [meta.found], if it does. *)
Inductive Response (R : Type) : Type :=
  | HTTPError
  | Page (results : list R) (found : option nat).

Arguments HTTPError {R}.
Arguments Page {R} results found.

(** The [while True] loop, page by page.  [None]: the fuel ran out;
    [Some (inl tt)]: [raise_for_status] raised; [Some (inr l)]: the loop
    was left with [all_results = l]. *)
Fixpoint fetch_loop {R : Type} (fuel : nat) (api : nat -> Response R)
    (page : nat) (all_results : list R) : option (unit + list R) :=
  match fuel with
  | O => None
  | S fuel =>
      match api page with
      | HTTPError => Some (inl tt)
      | Page results found =>
          match results with
          | [] => Some (inr all_results)
          | _ =>
              let all_results := all_results ++ results in
              if (default 0%nat found <=? length all_results)%nat
              then Some (inr all_results)
              else fetch_loop fuel api (page + 1) all_results
          end
      end
  end.

(** [fetch_from_openaq]: the records, or [None] when there is none. *)
Definition fetch_from_openaq {R : Type} (fuel : nat) (api : nat -> Response R)
  : option (unit + option (list R)) :=
  match fetch_loop fuel api 1 [] with
  | None => None
  | Some (inl e) => Some (inl e)
  | Some (inr []) => Some (inr None)
  | Some (inr all_results) => Some (inr (Some all_results))
  end.

(** What the main block of collect_data.py saves. *)
Inductive Saved (R : Type) : Type :=
  | FromAPI (rows : list R)
  | SampleData.

Arguments FromAPI {R} rows.
Arguments SampleData {R}.

Definition collect_main {R : Type} (use_sample : bool) (fuel : nat)
    (api : nat -> Response R) : option (Saved R) :=
  if use_sample then Some SampleData
  else
    match fetch_from_openaq fuel api with
    | None => None
    | Some (inl _) => Some SampleData
    | Some (inr None) => Some SampleData
    | Some (inr (Some rows)) => Some (FromAPI rows)
    end.

(** An API that serves the records [l] in pages of [limit], numbered from
    1, and announces their number. *)
Definition paged {R : Type} (l : list R) (limit : nat) (page : nat)
  : Response R :=
  Page (take limit (drop ((page - 1) * limit) l)) (Some (length l)).

(** ** train.py: show_feature_importance *)

(** [sorted(pairs, key=lambda x: x[1], reverse=True)]: by decreasing
    score; pairs of equal score keep their order. *)
Fixpoint insert_desc (p : string * Q) (l : list (string * Q))
  : list (string * Q) :=
  match l with
  | [] => [p]
  | q :: rest =>
      if Qle_bool (snd p) (snd q) then q :: insert_desc p rest
      else p :: l
  end.

Definition sorted_desc (l : list (string * Q)) : list (string * Q) :=
  fold_left (fun acc p => insert_desc p acc) l [].

(** The lines [show_feature_importance] prints: name, score and a bar of
    [int(score * 50)] marks. *)
Definition show_feature_importance (importances : list Q)
  : list (string * Q * nat) :=
  let pairs := sorted_desc (combine FEATURE_COLUMNS importances) in
  map (fun p => (fst p, snd p, Z.to_nat (Py.int (snd p * 50)))) pairs.

(** * Properties *)

(** ** Frames: reading a column back after an assignment *)

Lemma get_set_eq name c df :
  DataFrame.get name (DataFrame.set name c df) = Some c.
Proof.
  induction df as [|[n c'] rest IH]; simpl.
  - now rewrite String.eqb_refl.
  - destruct (String.eqb n name) eqn:E; simpl; rewrite E; auto.
Qed.

Lemma get_set_ne name name' c df :
  name <> name' ->
  DataFrame.get name' (DataFrame.set name c df) = DataFrame.get name' df.
Proof.
  intros Hne. induction df as [|[n c'] rest IH]; simpl.
  - destruct (String.eqb name name') eqn:E; auto.
    apply String.eqb_eq in E. contradiction.
  - destruct (String.eqb n name) eqn:E; simpl.
    + apply String.eqb_eq in E. subst n.
      destruct (String.eqb name name') eqn:E'; auto.
      apply String.eqb_eq in E'. contradiction.
    + destruct (String.eqb n name'); auto.
Qed.

Lemma get_float_set_ne name name' c df :
  name <> name' ->
  DataFrame.get_float name' (DataFrame.set name c df)
  = DataFrame.get_float name' df.
Proof. intros H. unfold DataFrame.get_float. now rewrite get_set_ne. Qed.

Lemma get_dates_set_ne name name' c df :
  name <> name' ->
  DataFrame.get_dates name' (DataFrame.set name c df)
  = DataFrame.get_dates name' df.
Proof. intros H. unfold DataFrame.get_dates. now rewrite get_set_ne. Qed.

Lemma get_float_set_eq name s df :
  DataFrame.get_float name (DataFrame.set name (Float64 s) df) = Some s.
Proof. unfold DataFrame.get_float. now rewrite get_set_eq. Qed.

(** Column names that differ are told apart by evaluating [String.eqb]. *)
Ltac names_differ :=
  let H := fresh in
  intros H; apply String.eqb_eq in H; vm_compute in H; discriminate H.

Ltac frame_lookup :=
  repeat first
    [ rewrite get_float_set_eq
    | rewrite get_set_eq
    | rewrite get_float_set_ne by names_differ
    | rewrite get_dates_set_ne by names_differ
    | rewrite get_set_ne by names_differ ].

(** ** Series.shift is positional *)

Lemma shift_length k s : length (shift k s) = length s.
Proof.
  unfold shift. destruct (0 <=? k).
  - rewrite length_take, length_app, length_replicate. lia.
  - rewrite length_app, length_drop, length_replicate. lia.
Qed.

Lemma shift_down_lookup (k : nat) (s : Series) (i : nat) :
  (i < length s)%nat ->
  shift (Z.of_nat k) s !! i = if (i <? k)%nat then Some NaN else s !! (i - k)%nat.
Proof.
  intros Hi. unfold shift.
  destruct (0 <=? Z.of_nat k) eqn:E; [|apply Z.leb_gt in E; lia].
  rewrite Nat2Z.id, lookup_take_lt by lia.
  destruct (i <? k)%nat eqn:Hik.
  - apply Nat.ltb_lt in Hik.
    rewrite lookup_app_l by (rewrite length_replicate; lia).
    now apply lookup_replicate_2.
  - apply Nat.ltb_ge in Hik.
    rewrite lookup_app_r by (rewrite length_replicate; lia).
    now rewrite length_replicate.
Qed.

Lemma shift_up_lookup (k : nat) (s : Series) (i : nat) :
  (0 < k)%nat ->
  (i < length s)%nat ->
  shift (- Z.of_nat k) s !! i
  = if (i + k <? length s)%nat then s !! (i + k)%nat else Some NaN.
Proof.
  intros Hk Hi. unfold shift.
  destruct (0 <=? - Z.of_nat k) eqn:E; [apply Z.leb_le in E; lia|].
  rewrite Z.opp_involutive, Nat2Z.id.
  destruct (i + k <? length s)%nat eqn:Hik.
  - apply Nat.ltb_lt in Hik.
    rewrite lookup_app_l by (rewrite length_drop; lia).
    rewrite lookup_drop. f_equal. lia.
  - apply Nat.ltb_ge in Hik.
    rewrite lookup_app_r by (rewrite length_drop; lia).
    apply lookup_replicate_2. rewrite length_drop. lia.
Qed.

(** Beyond the last row a shifted series has nothing, like the series. *)
Lemma shift_lookup_ge k s i :
  (length s <= i)%nat -> shift k s !! i = None.
Proof. intros H. apply lookup_ge_None. now rewrite shift_length. Qed.

(** What [add_lag_features] leaves in the frame. *)
Lemma add_lag_features_eq df s :
  DataFrame.get_float "pm25" df = Some s ->
  add_lag_features df
  = Some (DataFrame.set "pm25_lag_7" (Float64 (shift 7 s))
            (DataFrame.set "pm25_lag_2" (Float64 (shift 2 s))
               (DataFrame.set "pm25_lag_1" (Float64 (shift 1 s)) df))).
Proof.
  intros H. unfold add_lag_features. rewrite H. simpl.
  frame_lookup. rewrite H. simpl. frame_lookup. rewrite H. reflexivity.
Qed.

(** C2.  For every frame with a pm25 column [s], whatever its dates, and
    every [k] among 1, 2 and 7, [add_lag_features] returns a frame whose
    column pm25_lag_k holds at row [i] the pm25 of row [i - k] when
    [k <= i], and NaN when [i < k]: the lag counts rows, never calendar
    days. *)
Theorem C2_lag_features_positional :
  forall (df : DataFrame.t) (s : Series) (k i : nat),
    DataFrame.get_float "pm25" df = Some s ->
    k = 1%nat \/ k = 2%nat \/ k = 7%nat ->
    (i < length s)%nat ->
    exists (df' : DataFrame.t) (lag : Series),
      add_lag_features df = Some df' /\
      DataFrame.get_float (lag_name k) df' = Some lag /\
      length lag = length s /\
      ((k <= i)%nat -> lag !! i = s !! (i - k)%nat) /\
      ((i < k)%nat -> lag !! i = Some NaN).
Proof.
  intros df s k i Hs Hk Hi.
  eexists. exists (shift (Z.of_nat k) s).
  split; [apply (add_lag_features_eq _ _ Hs)|].
  split.
  - destruct Hk as [->|[->| ->]]; simpl lag_name; now frame_lookup.
  - split; [apply shift_length|].
    rewrite shift_down_lookup by assumption.
    split; intros H.
    + apply Nat.ltb_ge in H. now rewrite H.
    + apply Nat.ltb_lt in H. now rewrite H.
Qed.

Lemma C2_lag_features_positional_witness :
  exists (df' : DataFrame.t) (lag : Series),
    add_lag_features sample_daily = Some df' /\
    DataFrame.get_float (lag_name 7) df' = Some lag /\
    length lag = length sample_pm25 /\
    ((7 <= 8)%nat -> lag !! 8%nat = sample_pm25 !! (8 - 7)%nat) /\
    ((8 < 7)%nat -> lag !! 8%nat = Some NaN).
Proof.
  apply (C2_lag_features_positional sample_daily sample_pm25 7 8).
  - reflexivity.
  - right. right. reflexivity.
  - simpl. lia.
Defined.

(** ** Rounding to one decimal *)

Section Rounding.

Local Open Scope Q_scope.

Lemma rint_comp (x y : Q) : x == y -> Py.rint x = Py.rint y.
Proof.
  intros H. unfold Py.rint. rewrite (Qfloor_comp _ _ H).
  assert (Hc : x - inject_Z (Qfloor y) == y - inject_Z (Qfloor y))
    by now rewrite H.
  now rewrite (Qcompare_comp _ _ Hc _ _ (Qeq_refl (1 # 2))).
Qed.

(** [rint] is within one half of its argument. *)
Lemma rint_near (q : Q) :
  - (1 # 2) <= inject_Z (Py.rint q) - q /\ inject_Z (Py.rint q) - q <= 1 # 2.
Proof.
  unfold Py.rint.
  pose proof (Qfloor_le q) as Hlo.
  pose proof (Qlt_floor q) as Hhi.
  rewrite inject_Z_plus in Hhi. change (inject_Z 1) with 1 in Hhi.
  destruct (Qcompare_spec (q - inject_Z (Qfloor q)) (1 # 2)) as [E|E|E];
    [destruct (Z.even (Qfloor q))| |];
    rewrite ?inject_Z_plus; change (inject_Z 1) with 1; split; lra.
Qed.

Lemma rint_nonneg (q : Q) : 0 <= q -> (0 <= Py.rint q)%Z.
Proof.
  intros H. unfold Py.rint.
  assert (Hf : (0 <= Qfloor q)%Z).
  { rewrite <- (Qfloor_Z 0). now apply Qfloor_resp_le. }
  destruct (Qcompare _ _); [destruct (Z.even _)| |]; lia.
Qed.

Lemma rint_Z (z : Z) : Py.rint (inject_Z z) = z.
Proof.
  unfold Py.rint. rewrite Qfloor_Z.
  destruct (Qcompare_spec (inject_Z z - inject_Z z) (1 # 2)) as [E|E|E];
    [exfalso; lra|reflexivity|exfalso; lra].
Qed.

Lemma round_comp (x y : Q) (n : nat) : x == y -> Py.round x n = Py.round y n.
Proof.
  intros H. unfold Py.round. cbv zeta.
  now rewrite (rint_comp (x * _) (y * _)) by now rewrite H.
Qed.

Lemma round_nonneg (q : Q) (n : nat) : 0 <= q -> 0 <= Py.round q n.
Proof.
  intros H. unfold Py.round. cbv zeta. rewrite Qred_correct.
  assert (Hs : 0 < inject_Z (10 ^ Z.of_nat n)).
  { change 0 with (inject_Z 0). rewrite <- Zlt_Qlt.
    apply Z.pow_pos_nonneg; lia. }
  apply Qle_shift_div_l; [assumption|]. rewrite Qmult_0_l.
  change 0 with (inject_Z 0). rewrite <- Zle_Qle. apply rint_nonneg.
  apply Qmult_le_0_compat; lra.
Qed.

(** Rounding to one decimal gives a number of tenths at most 0.05 away. *)
Lemma round1_near (q : Q) :
  Py.round q 1 == inject_Z (Py.rint (q * 10)) / 10 /\
  - (1 # 20) <= Py.round q 1 - q /\ Py.round q 1 - q <= 1 # 20.
Proof.
  unfold Py.round. cbv zeta. rewrite Qred_correct.
  change (inject_Z (10 ^ Z.of_nat 1)) with 10.
  split; [reflexivity|].
  destruct (rint_near (q * 10)) as [Hlo Hhi].
  set (r := inject_Z (Py.rint (q * 10))) in *.
  assert (E : r / 10 == r * (1 # 10)) by (unfold Qdiv; reflexivity).
  rewrite E. split; lra.
Qed.

(** Rounding to one decimal is not at a tie when an odd multiple of the
    number is a number of tenths. *)
Lemma round1_strict (q : Q) (k n : Z) :
  Z.odd k = true ->
  q * inject_Z k == inject_Z n / 10 ->
  - (1 # 20) < Py.round q 1 - q /\ Py.round q 1 - q < 1 # 20.
Proof.
  intros Hk Hq.
  destruct (round1_near q) as (Ht & Hlo & Hhi).
  set (x := Py.round q 1) in *. set (t := Py.rint (q * 10)) in *.
  assert (E : forall z : Z, inject_Z z / 10 == inject_Z z * (1 # 10))
    by (intros z; unfold Qdiv; reflexivity).
  rewrite E in Ht, Hq.
  assert (Hodd : forall z : Z, (2 * z <> k)%Z).
  { intros z Hz. rewrite <- Hz, Z.odd_mul in Hk. discriminate Hk. }
  split.
  - apply Qle_lt_or_eq in Hlo as [Hlt|Heq]; [assumption|exfalso].
    apply (Hodd (n + - (k * t))%Z).
    apply inject_Z_injective.
    rewrite inject_Z_mult, inject_Z_plus, inject_Z_opp, inject_Z_mult.
    change (inject_Z 2) with 2.
    assert (Hq' : q == inject_Z t * (1 # 10) + (1 # 20)) by lra.
    rewrite Hq' in Hq. lra.
  - apply Qle_lt_or_eq in Hhi as [Hlt|Heq]; [assumption|exfalso].
    apply (Hodd (k * t + - n)%Z).
    apply inject_Z_injective.
    rewrite inject_Z_mult, inject_Z_plus, inject_Z_opp, inject_Z_mult.
    change (inject_Z 2) with 2.
    assert (Hq' : q == inject_Z t * (1 # 10) - (1 # 20)) by lra.
    rewrite Hq' in Hq. lra.
Qed.

(** The mean of a window of three and of seven values. *)
Lemma mean_3 (v : nat -> Q) (m : Q) :
  m * 3 == v 0%nat + v 1%nat + v 2%nat -> mean (map v (seq 0 3)) == m.
Proof.
  intros H. unfold mean, Qsum. cbn [map seq fold_left length].
  change (inject_Z (Z.of_nat 3)) with 3.
  unfold Qdiv. change (/ 3) with (1 # 3). lra.
Qed.

Lemma mean_7 (v : nat -> Q) (m : Q) :
  m * 7 == v 0%nat + v 1%nat + v 2%nat + v 3%nat + v 4%nat + v 5%nat + v 6%nat ->
  mean (map v (seq 0 7)) == m.
Proof.
  intros H. unfold mean, Qsum. cbn [map seq fold_left length].
  change (inject_Z (Z.of_nat 7)) with 7.
  unfold Qdiv. change (/ 7) with (1 # 7). lra.
Qed.

(** The sum of numbers of tenths is a number of tenths. *)
Lemma tenths_3 (v : nat -> Q) (m : Q) :
  m * 3 == v 0%nat + v 1%nat + v 2%nat ->
  (forall j, (j < 3)%nat -> exists t : Z, v j == inject_Z t / 10) ->
  exists n : Z, m * inject_Z 3 == inject_Z n / 10.
Proof.
  intros Hm Ht.
  destruct (Ht 0%nat ltac:(lia)) as [t0 H0].
  destruct (Ht 1%nat ltac:(lia)) as [t1 H1].
  destruct (Ht 2%nat ltac:(lia)) as [t2 H2].
  exists (t0 + t1 + t2)%Z. rewrite !inject_Z_plus.
  change (inject_Z 3) with 3. rewrite Hm, H0, H1, H2.
  unfold Qdiv. change (/ 10) with (1 # 10). lra.
Qed.

Lemma tenths_7 (v : nat -> Q) (m : Q) :
  m * 7 == v 0%nat + v 1%nat + v 2%nat + v 3%nat + v 4%nat + v 5%nat + v 6%nat ->
  (forall j, (j < 7)%nat -> exists t : Z, v j == inject_Z t / 10) ->
  exists n : Z, m * inject_Z 7 == inject_Z n / 10.
Proof.
  intros Hm Ht.
  destruct (Ht 0%nat ltac:(lia)) as [t0 H0].
  destruct (Ht 1%nat ltac:(lia)) as [t1 H1].
  destruct (Ht 2%nat ltac:(lia)) as [t2 H2].
  destruct (Ht 3%nat ltac:(lia)) as [t3 H3].
  destruct (Ht 4%nat ltac:(lia)) as [t4 H4].
  destruct (Ht 5%nat ltac:(lia)) as [t5 H5].
  destruct (Ht 6%nat ltac:(lia)) as [t6 H6].
  exists (t0 + t1 + t2 + t3 + t4 + t5 + t6)%Z. rewrite !inject_Z_plus.
  change (inject_Z 7) with 7. rewrite Hm, H0, H1, H2, H3, H4, H5, H6.
  unfold Qdiv. change (/ 10) with (1 # 10). lra.
Qed.

(** What rounding the mean [m] of a window to one decimal gives. *)
Lemma rounded_mean (l : list Q) (m : Q) :
  mean l == m ->
  exists tenths : Z,
    Py.round (mean l) 1 == inject_Z tenths / 10 /\
    - (1 # 20) <= Py.round (mean l) 1 - m /\
    Py.round (mean l) 1 - m <= 1 # 20 /\
    (forall k n : Z, Z.odd k = true -> m * inject_Z k == inject_Z n / 10 ->
                     - (1 # 20) < Py.round (mean l) 1 - m /\
                     Py.round (mean l) 1 - m < 1 # 20).
Proof.
  intros H. rewrite (round_comp _ _ 1 H).
  destruct (round1_near m) as (Ht & Hlo & Hhi).
  exists (Py.rint (m * 10)).
  split; [assumption|]. split; [assumption|]. split; [assumption|].
  intros k n. apply round1_strict.
Qed.

End Rounding.

(** ** Rolling means *)

Lemma rolling_mean_length w s : length (rolling_mean w s) = length s.
Proof. unfold rolling_mean. now rewrite length_map, length_seq. Qed.

Lemma series_round_length n s : length (series_round n s) = length s.
Proof. apply length_map. Qed.

Lemma rolling_mean_lookup w s i :
  (i < length s)%nat ->
  rolling_mean w s !! i
  = Some (let obs := observations (window w s i) in
          if (length obs <? w)%nat then NaN else Num (mean obs)).
Proof.
  intros Hi. unfold rolling_mean.
  rewrite list_lookup_fmap, lookup_seq_lt by assumption. reflexivity.
Qed.

Lemma observations_length_le s : (length (observations s) <= length s)%nat.
Proof.
  induction s as [|[|q] s IH]; simpl; lia.
Qed.

Lemma observations_Num vs : observations (map Num vs) = vs.
Proof.
  induction vs as [|v vs IH]; [reflexivity|]. simpl. now f_equal.
Qed.

Lemma observations_app s1 s2 :
  observations (s1 ++ s2) = observations s1 ++ observations s2.
Proof.
  induction s1 as [|[|q] s1 IH]; simpl; auto. now rewrite IH.
Qed.

(** A NaN inside a series is not an observation. *)
Lemma observations_NaN_lt s j :
  s !! j = Some NaN -> (length (observations s) < length s)%nat.
Proof.
  intros H. apply list_elem_of_split_length in H as (s1 & s2 & -> & _).
  rewrite observations_app, !length_app.
  pose proof (observations_length_le s1).
  pose proof (observations_length_le s2).
  simpl. lia.
Qed.

Lemma window_length w s i :
  (i < length s)%nat -> length (window w s i) = Nat.min w (S i).
Proof. intros H. unfold window. rewrite length_drop, length_take. lia. Qed.

Lemma window_lookup w s i j :
  (i < length s)%nat -> (w <= S i)%nat -> (j < w)%nat ->
  window w s i !! j = s !! (S i - w + j)%nat.
Proof.
  intros Hi Hw Hj. unfold window.
  rewrite lookup_drop, lookup_take_lt by lia. reflexivity.
Qed.

(** A full window whose rows all hold a value is the list of those values. *)
Lemma window_full w s i (v : nat -> Q) :
  (i < length s)%nat -> (w <= S i)%nat ->
  (forall j, (j < w)%nat -> s !! (S i - w + j)%nat = Some (Num (v j))) ->
  window w s i = map Num (map v (seq 0 w)).
Proof.
  intros Hi Hw Hv. apply list_eq. intros j.
  destruct (decide (j < w)%nat) as [Hj|Hj].
  - rewrite window_lookup, Hv by assumption.
    rewrite !list_lookup_fmap, lookup_seq_lt by assumption. reflexivity.
  - rewrite !lookup_ge_None_2; auto.
    + rewrite !length_map, length_seq. lia.
    + rewrite window_length by assumption. lia.
Qed.

Lemma rolling_short w s i :
  (i < length s)%nat -> (S i < w)%nat -> rolling_mean w s !! i = Some NaN.
Proof.
  intros Hi Hw. rewrite rolling_mean_lookup by assumption. cbv zeta.
  pose proof (observations_length_le (window w s i)) as Hle.
  rewrite window_length in Hle by assumption.
  destruct (Nat.ltb_spec (length (observations (window w s i))) w); [easy|lia].
Qed.

Lemma rolling_full w s i (v : nat -> Q) :
  (i < length s)%nat -> (0 < w)%nat -> (w <= S i)%nat ->
  (forall j, (j < w)%nat -> s !! (S i - w + j)%nat = Some (Num (v j))) ->
  rolling_mean w s !! i = Some (Num (mean (map v (seq 0 w)))).
Proof.
  intros Hi H0 Hw Hv. rewrite rolling_mean_lookup by assumption. cbv zeta.
  rewrite (window_full w s i v) by assumption.
  rewrite observations_Num, length_map, length_seq.
  now rewrite Nat.ltb_irrefl.
Qed.

Lemma rolling_gap w s i j :
  (i < length s)%nat -> (S i - w <= j)%nat -> (j <= i)%nat ->
  s !! j = Some NaN ->
  rolling_mean w s !! i = Some NaN.
Proof.
  intros Hi Hlo Hhi Hj. rewrite rolling_mean_lookup by assumption. cbv zeta.
  assert (Hw : window w s i !! (j - (S i - w))%nat = Some NaN).
  { unfold window. rewrite lookup_drop, lookup_take_lt by lia.
    rewrite <- Hj. f_equal. lia. }
  apply observations_NaN_lt in Hw.
  rewrite window_length in Hw by assumption.
  destruct (Nat.ltb_spec (length (observations (window w s i))) w); [easy|lia].
Qed.

Lemma add_rolling_averages_eq df s :
  DataFrame.get_float "pm25" df = Some s ->
  add_rolling_averages df
  = Some (DataFrame.set "pm25_rolling_7"
            (Float64 (series_round 1 (rolling_mean 7 s)))
            (DataFrame.set "pm25_rolling_3"
               (Float64 (series_round 1 (rolling_mean 3 s))) df)).
Proof.
  intros H. unfold add_rolling_averages. rewrite H. simpl.
  frame_lookup. rewrite H. reflexivity.
Qed.

(** C3.  For every frame with a pm25 column [s] and every [w] among 3 and
    7, [add_rolling_averages] returns a frame whose column pm25_rolling_w
    holds at row [i]: NaN when fewer than [w] rows end at row [i]; NaN when
    one of the rows [i-w+1 .. i] holds no value; and otherwise, these rows
    holding the values [v 0 .. v (w-1)] of arithmetic mean [m] (three
    times [m] is their sum for [w = 3], seven times for [w = 7]), that mean
    rounded to one decimal: a number of tenths at most 0.05 away from [m].
    When the values are numbers of tenths themselves, as the daily records
    are, [m] is never half-way between two tenths, and the column holds the
    one number of tenths nearest to the mean. *)
Theorem C3_rolling_averages :
  forall (df : DataFrame.t) (s : Series) (w i : nat),
    DataFrame.get_float "pm25" df = Some s ->
    w = 3%nat \/ w = 7%nat ->
    (i < length s)%nat ->
    exists (df' : DataFrame.t) (r : Series),
      add_rolling_averages df = Some df' /\
      DataFrame.get_float (rolling_name w) df' = Some r /\
      length r = length s /\
      ((S i < w)%nat -> r !! i = Some NaN) /\
      (forall j, (S i - w <= j)%nat -> (j <= i)%nat -> s !! j = Some NaN ->
                 r !! i = Some NaN) /\
      (forall (v : nat -> Q) (m : Q),
          (w <= S i)%nat ->
          (forall j, (j < w)%nat -> s !! (S i - w + j)%nat = Some (Num (v j))) ->
          (w = 3%nat -> (m * 3 == v 0%nat + v 1%nat + v 2%nat)%Q) ->
          (w = 7%nat -> (m * 7 == v 0%nat + v 1%nat + v 2%nat + v 3%nat
                                  + v 4%nat + v 5%nat + v 6%nat)%Q) ->
          exists (x : Q) (tenths : Z),
            r !! i = Some (Num x) /\
            (x == inject_Z tenths / 10)%Q /\
            (- (1 # 20) <= x - m)%Q /\
            (x - m <= 1 # 20)%Q /\
            ((forall j, (j < w)%nat -> exists t : Z, (v j == inject_Z t / 10)%Q) ->
             (- (1 # 20) < x - m)%Q /\ (x - m < 1 # 20)%Q)).
Proof.
  intros df s w i Hs Hw Hi.
  eexists. exists (series_round 1 (rolling_mean w s)).
  split; [apply (add_rolling_averages_eq _ _ Hs)|].
  split; [destruct Hw as [->| ->]; simpl rolling_name; now frame_lookup|].
  split; [now rewrite series_round_length, rolling_mean_length|].
  unfold series_round. rewrite list_lookup_fmap.
  split; [|split].
  - intros H. now rewrite rolling_short.
  - intros j Hlo Hhi Hj. now rewrite (rolling_gap w s i j).
  - intros v m H Hv H3 H7.
    rewrite (rolling_full w s i v); auto; [|destruct Hw as [->| ->]; lia].
    cbn [fmap option_fmap option_map].
    assert (Hmean : (mean (map v (seq 0 w)) == m)%Q).
    { destruct Hw as [->| ->]; [apply mean_3|apply mean_7]; auto. }
    destruct (rounded_mean _ _ Hmean) as (tenths & Ht & Hlo & Hhi & Hstrict).
    exists (Py.round (mean (map v (seq 0 w))) 1), tenths.
    split; [reflexivity|]. split; [assumption|].
    split; [assumption|]. split; [assumption|].
    intros Htenths.
    destruct Hw as [->| ->].
    + destruct (tenths_3 v m (H3 eq_refl) Htenths) as [n Hn].
      now apply (Hstrict 3 n).
    + destruct (tenths_7 v m (H7 eq_refl) Htenths) as [n Hn].
      now apply (Hstrict 7 n).
Qed.

(** The third day of the sample: 45.0, 38.0 and 42.0 have the mean 125/3,
    and the column holds the nearest number of tenths. *)
Lemma C3_rolling_averages_witness :
  exists (df' : DataFrame.t) (r : Series) (x : Q),
    add_rolling_averages sample_daily = Some df' /\
    DataFrame.get_float "pm25_rolling_3" df' = Some r /\
    r !! 2%nat = Some (Num x) /\
    (- (1 # 20) < x - (125 # 3))%Q /\ (x - (125 # 3) < 1 # 20)%Q.
Proof.
  destruct (C3_rolling_averages sample_daily sample_pm25 3 2)
    as (df' & r & Hdf & Hr & _ & _ & _ & Hvalue);
    [reflexivity|left; reflexivity|simpl; lia|].
  destruct (Hvalue (fun j => nth j [45.0; 38.0; 42.0]%Q 0%Q) (125 # 3)%Q)
    as (x & tenths & Hx & _ & _ & _ & Hstrict).
  - lia.
  - intros [|[|[|j]]] Hj; [reflexivity|reflexivity|reflexivity|lia].
  - intros _. reflexivity.
  - intros H. discriminate H.
  - exists df', r, x.
    split; [exact Hdf|]. split; [exact Hr|]. split; [exact Hx|].
    apply Hstrict.
    intros [|[|[|j]]] Hj; [exists 450%Z|exists 380%Z|exists 420%Z|lia];
      reflexivity.
Defined.

(** The 3-day average of the sample at its third day is 41.7. *)
Example rolling_3_sample :
  series_round 1 (rolling_mean 3 sample_pm25) !! 2%nat = Some (Num 41.7%Q).
Proof. reflexivity. Qed.

Example rolling_7_sample :
  series_round 1 (rolling_mean 7 sample_pm25)
  = [NaN; NaN; NaN; NaN; NaN; NaN;
     Num (379 # 10); Num (73 # 2); Num (181 # 5); Num (33 # 1)].
Proof. vm_compute. reflexivity. Qed.

(** ** The calendar behind the datetime accessors *)

Lemma day_of_year_range doe :
  0 <= doe < 146097 -> 0 <= day_of_year doe <= 365.
Proof.
  intros H. unfold day_of_year, year_of_era. cbv zeta.
  Z.div_mod_to_equations. lia.
Qed.

Lemma month_of_range doy : 0 <= doy <= 365 -> 1 <= month_of doy <= 12.
Proof.
  intros H. unfold month_of. cbv zeta.
  destruct (Z.ltb_spec ((5 * doy + 2) / 153) 10);
    Z.div_mod_to_equations; lia.
Qed.

Lemma month_range days : 1 <= month days <= 12.
Proof.
  unfold month, civil_of_days, civil_of_era. cbv zeta. cbn [fst snd].
  apply month_of_range, day_of_year_range.
  apply Z.mod_pos_bound. lia.
Qed.

Lemma dayofweek_range days : 0 <= dayofweek days <= 6.
Proof. unfold dayofweek. pose proof (Z.mod_pos_bound (days + 3) 7). lia. Qed.

Lemma dayofweek_succ days : dayofweek (days + 1) = (dayofweek days + 1) mod 7.
Proof.
  unfold dayofweek. rewrite Zplus_mod_idemp_l. f_equal. ring.
Qed.

Lemma all_from_spec n p :
  forall z0, all_from n z0 p = true ->
             forall z, z0 <= z < z0 + Z.of_nat n -> p z = true.
Proof.
  induction n as [|k IH]; intros z0 H z Hz; [lia|].
  simpl in H. apply andb_true_iff in H as [H1 H2].
  destruct (Z.eq_dec z z0) as [->|Hne]; [assumption|].
  apply (IH (z0 + 1)); [assumption|lia].
Qed.

Lemma years_checked : all_from 400 0 year_ok = true.
Proof. vm_compute. reflexivity. Qed.

Lemma year_ok_spec y :
  0 <= y <= 399 ->
  year_of_era (year_start y) = y /\
  year_of_era (year_start y + year_len y - 1) = y /\
  year_len y = (if is_leap (y + 1) then 366 else 365).
Proof.
  intros H.
  assert (Hy : year_ok y = true)
    by (apply (all_from_spec 400 year_ok 0 years_checked); lia).
  unfold year_ok in Hy.
  apply andb_true_iff in Hy as [Hy H3].
  apply andb_true_iff in Hy as [H1 H2].
  repeat split; lia.
Qed.

Lemma year_of_era_step doe :
  0 <= doe < 146096 -> year_of_era doe <= year_of_era (doe + 1).
Proof.
  intros H. unfold year_of_era.
  apply Z.div_le_mono; [lia|].
  Z.div_mod_to_equations. lia.
Qed.

Lemma year_of_era_mono a b :
  0 <= a -> a <= b -> b <= 146096 -> year_of_era a <= year_of_era b.
Proof.
  intros Ha Hab Hb.
  replace b with (a + Z.of_nat (Z.to_nat (b - a))) in * by lia.
  induction (Z.to_nat (b - a)) as [|n IH]; [rewrite Z.add_0_r; lia|].
  rewrite Nat2Z.inj_succ in *.
  transitivity (year_of_era (a + Z.of_nat n)); [apply IH; lia|].
  replace (a + Z.succ (Z.of_nat n)) with (a + Z.of_nat n + 1) by lia.
  apply year_of_era_step. lia.
Qed.

Lemma year_of_era_range doe :
  0 <= doe < 146097 -> 0 <= year_of_era doe <= 399.
Proof.
  intros H. split.
  - change 0 with (year_of_era 0) at 1. apply year_of_era_mono; lia.
  - change 399 with (year_of_era 146096). apply year_of_era_mono; lia.
Qed.

Lemma year_start_succ y :
  0 <= y < 399 -> year_start y + year_len y = year_start (y + 1).
Proof.
  intros H. unfold year_len.
  destruct (Z.eqb_spec y 399); lia.
Qed.

(** A day of an era lies within the year [year_of_era] gives it. *)
Lemma year_bounds doe :
  0 <= doe < 146097 ->
  year_start (year_of_era doe) <= doe
  < year_start (year_of_era doe) + year_len (year_of_era doe).
Proof.
  intros H.
  pose proof (year_of_era_range doe H) as Hy.
  pose proof (day_of_year_range doe H) as Hd.
  unfold day_of_year in Hd. cbv zeta in Hd. fold (year_start (year_of_era doe)) in Hd.
  split; [lia|].
  destruct (Z.eq_dec (year_of_era doe) 399) as [E|E].
  - rewrite E. vm_compute year_start. vm_compute year_len. lia.
  - rewrite year_start_succ by lia.
    destruct (Z.lt_ge_cases doe (year_start (year_of_era doe + 1)))
      as [Hlt|Hge]; [assumption|exfalso].
    assert (H0 : 0 <= year_start (year_of_era doe + 1))
      by (unfold year_start; Z.div_mod_to_equations; lia).
    pose proof (year_of_era_mono _ _ H0 Hge ltac:(lia)) as Hm.
    destruct (year_ok_spec (year_of_era doe + 1) ltac:(lia)) as (H1 & _).
    lia.
Qed.

(** From one day of an era to the next, the day of the year goes up by
    one, or the year does and its first day is reached. *)
Lemma year_next doe :
  0 <= doe < 146096 ->
  (day_of_year doe + 1 < year_len (year_of_era doe) /\
   year_of_era (doe + 1) = year_of_era doe /\
   day_of_year (doe + 1) = day_of_year doe + 1)
  \/ (day_of_year doe + 1 = year_len (year_of_era doe) /\
      year_of_era (doe + 1) = year_of_era doe + 1 /\
      day_of_year (doe + 1) = 0).
Proof.
  intros H.
  pose proof (year_of_era_range doe ltac:(lia)) as Hy.
  pose proof (year_bounds doe ltac:(lia)) as Hb.
  destruct (year_ok_spec _ Hy) as (Hs & He & Hl).
  unfold day_of_year. cbv zeta. fold (year_start (year_of_era doe)).
  fold (year_start (year_of_era (doe + 1))).
  set (y := year_of_era doe) in *.
  destruct (Z.lt_ge_cases (doe + 1) (year_start y + year_len y)) as [Hin|Hout].
  - left.
    assert (Hy1 : year_of_era (doe + 1) = y).
    { apply Z.le_antisymm.
      - transitivity (year_of_era (year_start y + year_len y - 1)); [|lia].
        apply year_of_era_mono; try lia.
        destruct (Z.eq_dec y 399) as [E|E].
        + rewrite E. vm_compute. discriminate.
        + assert (year_start y + year_len y <= 146097).
          { rewrite year_start_succ by lia.
            unfold year_start. Z.div_mod_to_equations. lia. }
          lia.
      - apply year_of_era_step. lia. }
    rewrite Hy1. lia.
  - right.
    assert (Hne : y <> 399).
    { intros E. rewrite E in Hout.
      change (year_start 399 + year_len 399) with 146097 in Hout. lia. }
    assert (Heq : doe + 1 = year_start (y + 1))
      by (rewrite <- year_start_succ by lia; lia).
    destruct (year_ok_spec (y + 1) ltac:(lia)) as (Hs' & _).
    rewrite Heq, Hs'. rewrite <- year_start_succ in Heq by lia. lia.
Qed.

Lemma civil_eqb_eq a b : civil_eqb a b = true -> a = b.
Proof.
  destruct a as [[y m] d], b as [[y' m'] d']. unfold civil_eqb. intros H.
  apply andb_true_iff in H as [H Hd].
  apply andb_true_iff in H as [Hy Hm].
  f_equal; [f_equal|]; lia.
Qed.

Lemma days_checked :
  all_from 365 0 (day_ok 0) = true /\ all_from 366 0 (day_ok 3) = true.
Proof. split; vm_compute; reflexivity. Qed.

Lemma is_leap_era y e : is_leap (y + e * 400) = is_leap y.
Proof.
  unfold is_leap.
  replace ((y + e * 400) mod 4) with (y mod 4)
    by (replace (e * 400) with (e * 100 * 4) by ring;
        now rewrite Z_mod_plus_full).
  replace ((y + e * 400) mod 100) with (y mod 100)
    by (replace (e * 400) with (e * 4 * 100) by ring;
        now rewrite Z_mod_plus_full).
  now rewrite Z_mod_plus_full.
Qed.

(** The date after a date does not depend on the year, but for the
    length of February. *)
Lemma next_civil_add_years e y m d :
  (m = 2 -> is_leap (y + e) = is_leap y) ->
  next_civil (add_years e (y, m, d)) = add_years e (next_civil (y, m, d)).
Proof.
  intros H. unfold next_civil, add_years, days_in_month.
  destruct (Z.eqb_spec m 2) as [E|E].
  - rewrite (H E). destruct (is_leap y); destruct (d <? _);
      try reflexivity; destruct (m <? 12);
      first [reflexivity | f_equal; f_equal; ring].
  - destruct (_ || _); destruct (d <? _); try reflexivity;
      destruct (m <? 12); first [reflexivity | f_equal; f_equal; ring].
Qed.

Lemma civil_of_year_add e y doy :
  civil_of_year (y + e) doy = add_years e (civil_of_year y doy).
Proof.
  unfold civil_of_year, add_years. cbv zeta. f_equal. f_equal. ring.
Qed.

(** Within a year, and from its last day to the first day of the next, one
    more day is the next date. *)
Lemma day_next y doy :
  0 <= doy < (if is_leap (y + 1) then 366 else 365) ->
  (if doy + 1 <? (if is_leap (y + 1) then 366 else 365)
   then civil_of_year y (doy + 1)
   else civil_of_year (y + 1) 0)
  = next_civil (civil_of_year y doy).
Proof.
  intros H.
  set (y0 := if is_leap (y + 1) then 3 else 0).
  assert (Hleap : is_leap (y0 + 1) = is_leap (y + 1))
    by (subst y0; destruct (is_leap (y + 1)); reflexivity).
  assert (Hok : day_ok y0 doy = true).
  { destruct days_checked as [H365 H366]. subst y0.
    destruct (is_leap (y + 1)).
    - apply (all_from_spec 366 (day_ok 3) 0 H366). lia.
    - apply (all_from_spec 365 (day_ok 0) 0 H365). lia. }
  apply civil_eqb_eq in Hok. rewrite Hleap in Hok.
  assert (H1 : forall k, civil_of_year y k
                         = add_years (y - y0) (civil_of_year y0 k)).
  { intros k. rewrite <- civil_of_year_add. f_equal. ring. }
  assert (H2 : civil_of_year (y + 1) 0
               = add_years (y - y0) (civil_of_year (y0 + 1) 0)).
  { rewrite <- civil_of_year_add. f_equal. ring. }
  rewrite !H1, H2.
  assert (H3 : next_civil (add_years (y - y0) (civil_of_year y0 doy))
               = add_years (y - y0) (next_civil (civil_of_year y0 doy))).
  { unfold civil_of_year. cbv zeta. apply next_civil_add_years.
    intros Hm. rewrite Hm. cbn [Z.leb Z.compare Pos.compare Pos.compare_cont].
    replace (y0 + 1 + (y - y0)) with (y + 1) by ring. now rewrite Hleap. }
  rewrite H3, <- Hok. now destruct (doy + 1 <? _).
Qed.

Lemma civil_of_era_year doe :
  civil_of_era 0 doe = civil_of_year (year_of_era doe) (day_of_year doe).
Proof.
  unfold civil_of_era, civil_of_year. cbv zeta. f_equal. f_equal. ring.
Qed.

Lemma civil_of_era_shift e doe :
  civil_of_era e doe = add_years (e * 400) (civil_of_era 0 doe).
Proof.
  unfold civil_of_era, add_years. cbv zeta. f_equal. f_equal. ring.
Qed.

Lemma civil_succ_era doe :
  0 <= doe < 146096 ->
  civil_of_era 0 (doe + 1) = next_civil (civil_of_era 0 doe).
Proof.
  intros H. rewrite !civil_of_era_year.
  pose proof (year_of_era_range doe ltac:(lia)) as Hy.
  pose proof (day_of_year_range doe ltac:(lia)) as Hd.
  destruct (year_ok_spec _ Hy) as (_ & _ & Hl).
  pose proof (day_next (year_of_era doe) (day_of_year doe)) as Hn.
  destruct (year_next doe H) as [(Hlt & -> & ->)|(Heq & -> & ->)];
    rewrite Hl in *; rewrite <- Hn by lia.
  - destruct (Z.ltb_spec (day_of_year doe + 1)
                (if is_leap (year_of_era doe + 1) then 366 else 365));
      [reflexivity|lia].
  - destruct (Z.ltb_spec (day_of_year doe + 1)
                (if is_leap (year_of_era doe + 1) then 366 else 365));
      [lia|reflexivity].
Qed.

(** A day count plus one is the date that follows in the calendar. *)
Lemma civil_succ days :
  civil_of_days (days + 1) = next_civil (civil_of_days days).
Proof.
  unfold civil_of_days, era, day_of_era.
  replace (days + 1 + 719468) with (days + 719468 + 1) by ring.
  set (z := days + 719468).
  pose proof (Z.mod_pos_bound z 146097 ltac:(lia)) as Hb.
  pose proof (Z.div_mod z 146097 ltac:(lia)) as Hz.
  assert (Hshift : forall e c,
             next_civil (add_years (e * 400) c)
             = add_years (e * 400) (next_civil c)).
  { intros e [[y m] d]. apply next_civil_add_years.
    intros _. apply is_leap_era. }
  destruct (Z.eq_dec (z mod 146097) 146096) as [Hlast|Hin].
  - assert (He : (z + 1) / 146097 = z / 146097 + 1).
    { symmetry. apply (Z.div_unique (z + 1) 146097 _ 0); lia. }
    assert (Hm : (z + 1) mod 146097 = 0).
    { symmetry. apply (Z.mod_unique (z + 1) 146097 (z / 146097 + 1) 0); lia. }
    rewrite He, Hm, Hlast.
    rewrite (civil_of_era_shift (z / 146097) 146096), Hshift.
    rewrite civil_of_era_shift.
    change (civil_of_era 0 0) with (0, 3, 1).
    change (next_civil (civil_of_era 0 146096)) with (400, 3, 1).
    unfold add_years. f_equal. f_equal. ring.
  - assert (He : (z + 1) / 146097 = z / 146097).
    { symmetry. apply (Z.div_unique (z + 1) 146097 _ (z mod 146097 + 1)); lia. }
    assert (Hm : (z + 1) mod 146097 = z mod 146097 + 1).
    { symmetry. apply (Z.mod_unique (z + 1) 146097 (z / 146097)); lia. }
    rewrite He, Hm.
    rewrite (civil_of_era_shift _ (z mod 146097)), Hshift.
    rewrite civil_of_era_shift. f_equal.
    apply civil_succ_era. lia.
Qed.

Lemma add_calendar_features_eq df date :
  DataFrame.get_dates "date" df = Some date ->
  add_calendar_features df
  = Some (DataFrame.set "month" (Int64 (map month (map (fun d => d + 1) date)))
            (DataFrame.set "day_of_week"
               (Int64 (map dayofweek (map (fun d => d + 1) date))) df)).
Proof. intros H. unfold add_calendar_features. now rewrite H. Qed.

(** C4.  For every frame with a date column, [add_calendar_features]
    returns a frame whose row [i], of date [d], holds in day_of_week the
    weekday of [d + 1] (0 to 6, one past the weekday of [d] modulo 7,
    Monday being 0) and in month the month, 1 to 12, of the date that
    follows [d] in the calendar: the month of [d] itself unless [d] is the
    last day of its month, and the month after it otherwise, January after
    December.  The dates are those of the Gregorian calendar: day 0 is
    1970-01-01, and one more day is the next date, through months of 28 to
    31 days and the leap years. *)
Theorem C4_calendar_of_predicted_day :
  forall (df : DataFrame.t) (date : list Z) (i : nat) (d : Z),
    DataFrame.get_dates "date" df = Some date ->
    date !! i = Some d ->
    exists (df' : DataFrame.t) (dow mon : list Z),
      add_calendar_features df = Some df' /\
      DataFrame.get "day_of_week" df' = Some (Int64 dow) /\
      DataFrame.get "month" df' = Some (Int64 mon) /\
      dow !! i = Some (dayofweek (d + 1)) /\
      mon !! i = Some (month (d + 1)) /\
      0 <= dayofweek (d + 1) <= 6 /\
      dayofweek (d + 1) = (dayofweek d + 1) mod 7 /\
      (dayofweek (d + 1) = 0 <-> (d + 1 - 4) mod 7 = 0) /\
      1 <= month (d + 1) <= 12 /\
      (exists y m day : Z,
          civil_of_days d = (y, m, day) /\
          month d = m /\
          civil_of_days (d + 1) = next_civil (y, m, day) /\
          month (d + 1) = (if day <? days_in_month y m then m
                           else if m <? 12 then m + 1 else 1)) /\
      civil_of_days 0 = (1970, 1, 1) /\
      (forall k : Z, civil_of_days (k + 1) = next_civil (civil_of_days k)).
Proof.
  intros df date i d Hdate Hi.
  eexists. exists (map dayofweek (map (fun d => d + 1) date)).
  exists (map month (map (fun d => d + 1) date)).
  split; [apply (add_calendar_features_eq _ _ Hdate)|].
  split; [now frame_lookup|].
  split; [now frame_lookup|].
  rewrite !list_lookup_fmap, Hi. simpl.
  split; [reflexivity|]. split; [reflexivity|].
  split; [apply dayofweek_range|].
  split; [apply dayofweek_succ|].
  split; [unfold dayofweek; split; intros H; Z.div_mod_to_equations; lia|].
  split; [apply month_range|].
  split; [|split; [reflexivity|apply civil_succ]].
  unfold month. rewrite civil_succ.
  destruct (civil_of_days d) as [[y m] day].
  exists y, m, day.
  split; [reflexivity|]. split; [reflexivity|]. split; [reflexivity|].
  unfold next_civil.
  destruct (day <? days_in_month y m); [reflexivity|].
  now destruct (m <? 12).
Qed.

(** The 29th of February 2024, a Thursday: the row gets Friday and March. *)
Lemma C4_calendar_of_predicted_day_witness :
  exists (df' : DataFrame.t) (dow mon : list Z),
    add_calendar_features sample_daily = Some df' /\
    DataFrame.get "day_of_week" df' = Some (Int64 dow) /\
    DataFrame.get "month" df' = Some (Int64 mon) /\
    dow !! 4%nat = Some 4 /\
    mon !! 4%nat = Some 3 /\
    civil_of_days 19782 = (2024, 2, 29) /\
    civil_of_days (19782 + 1) = (2024, 3, 1).
Proof.
  destruct (C4_calendar_of_predicted_day sample_daily sample_dates 4 19782)
    as (df' & dow & mon & Hdf & Hdow & Hmon & Hd & Hm & _ & _ & _ & _
        & (y & m & day & Hc & _ & Hnext & _) & _);
    [reflexivity|reflexivity|].
  exists df', dow, mon.
  split; [exact Hdf|]. split; [exact Hdow|]. split; [exact Hmon|].
  split; [exact Hd|]. split; [exact Hm|].
  split; [reflexivity|].
  rewrite Hnext, <- Hc. reflexivity.
Defined.

(** 1970-01-01 was a Thursday, 2024-01-01 a Monday. *)
Example dayofweek_epoch : dayofweek 0 = 3 /\ dayofweek 19723 = 0.
Proof. split; reflexivity. Qed.

Example civil_of_days_known :
  civil_of_days 0 = (1970, 1, 1) /\
  civil_of_days 19782 = (2024, 2, 29) /\
  civil_of_days 19783 = (2024, 3, 1) /\
  civil_of_days 19722 = (2023, 12, 31) /\
  civil_of_days (-1) = (1969, 12, 31).
Proof. repeat split; reflexivity. Qed.

(** The last day of February 2024, a Thursday in a leap year, is given the
    calendar of the 1st of March, a Friday. *)
Example calendar_features_sample :
  (add_calendar_features sample_daily ≫= DataFrame.get "day_of_week")
  = Some (Int64 [0; 1; 2; 3; 4; 5; 6; 0; 1; 2]) /\
  (add_calendar_features sample_daily ≫= DataFrame.get "month")
  = Some (Int64 [2; 2; 2; 2; 3; 3; 3; 3; 3; 3]).
Proof. split; reflexivity. Qed.

(** ** Rows dropped by clean_and_save *)

Lemma filter_seq_all (P : nat -> Prop) `{!forall i, Decision (P i)} start n :
  (forall i, (start <= i < start + n)%nat -> P i) ->
  filter P (seq start n) = seq start n.
Proof.
  revert start. induction n as [|n IH]; intros start Hall; [reflexivity|].
  simpl. rewrite filter_cons_True by (apply Hall; lia).
  f_equal. apply IH. intros i Hi. apply Hall. lia.
Qed.

Lemma filter_seq_none (P : nat -> Prop) `{!forall i, Decision (P i)} start n :
  (forall i, (start <= i < start + n)%nat -> ~ P i) ->
  filter P (seq start n) = [].
Proof.
  revert start. induction n as [|n IH]; intros start Hnone; [reflexivity|].
  simpl. rewrite filter_cons_False by (apply Hnone; lia).
  apply IH. intros i Hi. apply Hnone. lia.
Qed.

(** Filtering the positions [0 .. n-1] by a test that holds exactly on
    [a .. b-1] leaves these positions, in order. *)
Lemma filter_seq_interval (P : nat -> Prop) `{!forall i, Decision (P i)} a b n :
  (a <= b)%nat -> (b <= n)%nat ->
  (forall i, (i < n)%nat -> P i <-> (a <= i < b)%nat) ->
  filter P (seq 0 n) = seq a (b - a).
Proof.
  intros Hab Hbn Hiff.
  replace n with (a + ((b - a) + (n - b)))%nat in * by lia.
  rewrite !seq_app, !filter_app. simpl.
  rewrite filter_seq_none, filter_seq_all, filter_seq_none.
  - now rewrite app_nil_r.
  - intros i Hi. rewrite Hiff by lia. lia.
  - intros i Hi. apply Hiff; lia.
  - intros i Hi. rewrite Hiff by lia. lia.
Qed.

Lemma observations_all (s : Series) :
  Forall (fun c => isna c = false) s -> length (observations s) = length s.
Proof.
  induction 1 as [|[|q] s Hc Hs IH]; simpl; [reflexivity|discriminate|].
  now rewrite IH.
Qed.

(** On a series without NaN the rolling mean has a value from row [w-1] on. *)
Lemma rolling_defined w s i :
  Forall (fun c => isna c = false) s ->
  (i < length s)%nat -> (w <= S i)%nat ->
  exists q, rolling_mean w s !! i = Some (Num q).
Proof.
  intros Hs Hi Hw. rewrite rolling_mean_lookup by assumption. cbv zeta.
  assert (Hl : length (observations (window w s i)) = w).
  { rewrite observations_all, window_length by
      (try assumption; unfold window; now apply Forall_drop, Forall_take).
    lia. }
  rewrite Hl, Nat.ltb_irrefl. eauto.
Qed.

Lemma isna_shift_down (k : nat) s i :
  Forall (fun c => isna c = false) s -> (i < length s)%nat ->
  col_isna (Float64 (shift (Z.of_nat k) s)) i = (i <? k)%nat.
Proof.
  intros Hs Hi. simpl. rewrite shift_down_lookup by assumption.
  destruct (i <? k)%nat eqn:E; [reflexivity|].
  apply Nat.ltb_ge in E.
  destruct (lookup_lt_is_Some_2 s (i - k)%nat ltac:(lia)) as [x Hx].
  rewrite Hx. exact (proj1 (Forall_lookup _ _) Hs _ _ Hx).
Qed.

Lemma isna_shift_up s i :
  Forall (fun c => isna c = false) s -> (i < length s)%nat ->
  col_isna (Float64 (shift (-1) s)) i = negb (i + 1 <? length s)%nat.
Proof.
  intros Hs Hi. simpl.
  change (-1) with (- Z.of_nat 1).
  rewrite (shift_up_lookup 1 s i) by (assumption || lia).
  destruct (i + 1 <? length s)%nat eqn:E; [|reflexivity].
  apply Nat.ltb_lt in E.
  destruct (lookup_lt_is_Some_2 s (i + 1)%nat E) as [x Hx].
  rewrite Hx. exact (proj1 (Forall_lookup _ _) Hs _ _ Hx).
Qed.

Lemma isna_rolling w s i :
  Forall (fun c => isna c = false) s -> (i < length s)%nat ->
  col_isna (Float64 (series_round 1 (rolling_mean w s))) i = (S i <? w)%nat.
Proof.
  intros Hs Hi. simpl. unfold series_round. rewrite list_lookup_fmap.
  destruct (S i <? w)%nat eqn:E.
  - apply Nat.ltb_lt in E. now rewrite rolling_short.
  - apply Nat.ltb_ge in E.
    destruct (rolling_defined w s i Hs Hi E) as [q ->]. reflexivity.
Qed.

Lemma isna_pm25 s i :
  Forall (fun c => isna c = false) s -> (i < length s)%nat ->
  col_isna (Float64 s) i = false.
Proof.
  intros Hs Hi. simpl.
  destruct (lookup_lt_is_Some_2 s i Hi) as [x Hx].
  rewrite Hx. exact (proj1 (Forall_lookup _ _) Hs _ _ Hx).
Qed.

Lemma isna_int (l : list Z) i :
  (i < length l)%nat -> col_isna (Int64 l) i = false.
Proof.
  intros Hi. simpl. destruct (lookup_lt_is_Some_2 l i Hi) as [x ->].
  reflexivity.
Qed.

Lemma feature_table_eq date s :
  feature_table (daily_frame date s) = Some (full_table date s).
Proof. reflexivity. Qed.

Lemma select_full_table date s :
  DataFrame.select (FEATURE_COLUMNS ++ [TARGET_COLUMN]) (full_table date s)
  = Some (kept_table date s).
Proof. reflexivity. Qed.

Lemma row_complete_kept date s i :
  length date = length s ->
  Forall (fun c => isna c = false) s ->
  (i < length s)%nat ->
  DataFrame.row_complete (kept_table date s) i = true
  <-> (7 <= i < length s - 1)%nat.
Proof.
  intros Hlen Hs Hi.
  unfold DataFrame.row_complete, kept_table, forallb, snd.
  rewrite (isna_pm25 s i Hs Hi).
  change (shift 1 s) with (shift (Z.of_nat 1) s).
  change (shift 2 s) with (shift (Z.of_nat 2) s).
  change (shift 7 s) with (shift (Z.of_nat 7) s).
  rewrite (isna_shift_down 1 s i Hs Hi), (isna_shift_down 2 s i Hs Hi),
    (isna_shift_down 7 s i Hs Hi).
  rewrite (isna_rolling 3 s i Hs Hi), (isna_rolling 7 s i Hs Hi).
  rewrite !isna_int by (rewrite !length_map; lia).
  rewrite (isna_shift_up s i Hs Hi).
  destruct (Nat.ltb_spec i 1), (Nat.ltb_spec i 2), (Nat.ltb_spec i 7),
    (Nat.ltb_spec (S i) 3), (Nat.ltb_spec (S i) 7),
    (Nat.ltb_spec (i + 1) (length s)); simpl; split; intros; try lia;
    try discriminate; reflexivity.
Qed.

Lemma pick_seq {A : Type} (l : list A) a n :
  (a + n <= length l)%nat -> pick (seq a n) l = take n (drop a l).
Proof.
  revert a. induction n as [|n IH]; intros a H; [reflexivity|].
  unfold pick in *. simpl.
  destruct (lookup_lt_is_Some_2 l a ltac:(lia)) as [x Hx].
  rewrite Hx. simpl.
  rewrite (drop_S l x a Hx). simpl. f_equal.
  apply IH. lia.
Qed.

Lemma col_pick_seq c a n :
  (a + n <= col_len c)%nat -> col_pick (seq a n) c = col_take n (col_drop a c).
Proof. destruct c; simpl; intros H; f_equal; now apply pick_seq. Qed.

(** C5.  For every daily series of [N >= 9] records whose pm25 are all
    defined, the feature steps followed by [clean_and_save] return the
    nine kept columns restricted to the rows [7 .. N-2]: the first 7 rows
    and the last row are dropped, and no other. *)
Theorem C5_rows_dropped_exactly :
  forall (date : list Z) (s : Series),
    length date = length s ->
    (9 <= length s)%nat ->
    Forall (fun c => isna c = false) s ->
    exists full kept out : DataFrame.t,
      feature_table (daily_frame date s) = Some full /\
      DataFrame.select (FEATURE_COLUMNS ++ [TARGET_COLUMN]) full = Some kept /\
      DataFrame.nrows kept = length s /\
      DataFrame.complete_rows kept = seq 7 (length s - 8) /\
      clean_and_save full = Some out /\
      preprocess (daily_frame date s) = Some out /\
      out = DataFrame.take_rows (seq 7 (length s - 8)) kept /\
      out = DataFrame.iloc_to (length s - 8) (DataFrame.iloc_from 7 kept) /\
      DataFrame.nrows out = (length s - 8)%nat.
Proof.
  intros date s Hlen HN Hs.
  assert (Hrows : DataFrame.complete_rows (kept_table date s)
                  = seq 7 (length s - 8)).
  { unfold DataFrame.complete_rows.
    change (DataFrame.nrows (kept_table date s)) with (length s).
    replace (length s - 8)%nat with (length s - 1 - 7)%nat by lia.
    apply filter_seq_interval; [lia|lia|].
    intros i Hi. now apply row_complete_kept. }
  exists (full_table date s), (kept_table date s),
    (DataFrame.take_rows (seq 7 (length s - 8)) (kept_table date s)).
  split; [apply feature_table_eq|].
  split; [apply select_full_table|].
  split; [reflexivity|].
  split; [exact Hrows|].
  assert (Hsave : clean_and_save (full_table date s)
                  = Some (DataFrame.take_rows (seq 7 (length s - 8))
                            (kept_table date s))).
  { unfold clean_and_save. rewrite select_full_table. simpl.
    unfold DataFrame.dropna. now rewrite Hrows. }
  split; [exact Hsave|].
  split; [unfold preprocess; rewrite feature_table_eq; exact Hsave|].
  split; [reflexivity|].
  split.
  - unfold DataFrame.take_rows, DataFrame.iloc_to, DataFrame.iloc_from,
      kept_table. cbn [map fst snd].
    rewrite !col_pick_seq; [reflexivity|..]; unfold col_len;
      rewrite ?shift_length, ?series_round_length, ?rolling_mean_length,
        ?length_map; lia.
  - unfold DataFrame.nrows, DataFrame.take_rows, kept_table.
    cbn [map fst snd].
    rewrite col_pick_seq by (unfold col_len; lia).
    unfold col_take, col_drop, col_len.
    rewrite length_take, length_drop. lia.
Qed.

Lemma C5_rows_dropped_exactly_witness :
  exists full kept out : DataFrame.t,
    feature_table sample_daily = Some full /\
    DataFrame.select (FEATURE_COLUMNS ++ [TARGET_COLUMN]) full = Some kept /\
    DataFrame.nrows kept = length sample_pm25 /\
    DataFrame.complete_rows kept = seq 7 (length sample_pm25 - 8) /\
    clean_and_save full = Some out /\
    preprocess sample_daily = Some out /\
    out = DataFrame.take_rows (seq 7 (length sample_pm25 - 8)) kept /\
    out = DataFrame.iloc_to (length sample_pm25 - 8) (DataFrame.iloc_from 7 kept) /\
    DataFrame.nrows out = (length sample_pm25 - 8)%nat.
Proof.
  apply (C5_rows_dropped_exactly sample_dates sample_pm25).
  - reflexivity.
  - simpl. lia.
  - repeat constructor.
Defined.

(** Of the ten sample days the eighth and the ninth are kept. *)
Example preprocess_sample :
  preprocess sample_daily
  = Some [ ("pm25"%string, Float64 [Num 35.4%Q; Num 35.5%Q]);
           ("pm25_lag_1"%string, Float64 [Num 12.1%Q; Num 35.4%Q]);
           ("pm25_lag_2"%string, Float64 [Num 12.0%Q; Num 12.1%Q]);
           ("pm25_lag_7"%string, Float64 [Num 45.0%Q; Num 38.0%Q]);
           ("pm25_rolling_3"%string, Float64 [Num (99 # 5); Num (277 # 10)]);
           ("pm25_rolling_7"%string, Float64 [Num (73 # 2); Num (181 # 5)]);
           ("day_of_week"%string, Int64 [0; 1]);
           ("month"%string, Int64 [3; 3]);
           ("pm25_next_day"%string, Float64 [Num 35.5%Q; Num 20.0%Q]) ].
Proof. vm_compute. reflexivity. Qed.

(** ** The chronological split *)

Lemma split_idx_eq (n : nat) :
  Z.of_nat (split_idx n) = 4 * Z.of_nat n / 5.
Proof.
  unfold split_idx, Py.int, TEST_SIZE.
  change (Qnum (inject_Z (Z.of_nat n) * (1 - 0.2))) with (Z.of_nat n * 8).
  change (Z.pos (Qden (inject_Z (Z.of_nat n) * (1 - 0.2)))) with 10.
  rewrite Z.quot_div_nonneg by lia.
  rewrite Z2Nat.id by (apply Z.div_pos; lia).
  replace (Z.of_nat n * 8) with (2 * (4 * Z.of_nat n)) by ring.
  change 10 with (2 * 5). apply Z.div_mul_cancel_l; lia.
Qed.

Lemma split_idx_floor (n : nat) :
  Z.of_nat (split_idx n)
  = Qfloor (inject_Z (Z.of_nat n) * (1 - TEST_SIZE)).
Proof.
  rewrite split_idx_eq. unfold TEST_SIZE, Qfloor.
  change (inject_Z (Z.of_nat n) * (1 - 0.2))%Q with (Z.of_nat n * 8 # 10).
  cbn [Qnum Qden].
  replace (Z.of_nat n * 8) with (2 * (4 * Z.of_nat n)) by ring.
  change (Z.pos 10) with (2 * 5). symmetry. apply Z.div_mul_cancel_l; lia.
Qed.

Lemma split_idx_le (n : nat) : (split_idx n <= n)%nat.
Proof.
  pose proof (split_idx_eq n) as H.
  assert (4 * Z.of_nat n / 5 <= Z.of_nat n) by (Z.div_mod_to_equations; lia).
  lia.
Qed.

Lemma get_iloc_to name k df :
  DataFrame.get name (DataFrame.iloc_to k df)
  = col_take k <$> DataFrame.get name df.
Proof.
  induction df as [|[n c] rest IH]; [reflexivity|]. simpl.
  destruct (String.eqb n name); [reflexivity|exact IH].
Qed.

Lemma get_iloc_from name k df :
  DataFrame.get name (DataFrame.iloc_from k df)
  = col_drop k <$> DataFrame.get name df.
Proof.
  induction df as [|[n c] rest IH]; [reflexivity|]. simpl.
  destruct (String.eqb n name); [reflexivity|exact IH].
Qed.

Lemma col_pick_prefix c k :
  (k <= col_len c)%nat -> col_pick (seq 0 k) c = col_take k c.
Proof.
  intros H. rewrite col_pick_seq by lia.
  destruct c; simpl; now rewrite drop_0.
Qed.

Lemma col_pick_suffix c k :
  (k <= col_len c)%nat -> col_pick (seq k (col_len c - k)) c = col_drop k c.
Proof.
  intros H. rewrite col_pick_seq by lia.
  destruct c; simpl in *; f_equal; apply take_ge; rewrite length_drop; lia.
Qed.

Lemma iloc_to_rows k df :
  frame_wf df -> (k <= DataFrame.nrows df)%nat ->
  DataFrame.iloc_to k df = DataFrame.take_rows (seq 0 k) df.
Proof.
  unfold frame_wf. generalize (DataFrame.nrows df) as n.
  intros n Hwf Hk. unfold DataFrame.iloc_to, DataFrame.take_rows.
  induction Hwf as [|[name c] rest Hc Hrest IH]; [reflexivity|].
  simpl in *. rewrite IH, col_pick_prefix by lia. reflexivity.
Qed.

Lemma iloc_from_rows k df :
  frame_wf df -> (k <= DataFrame.nrows df)%nat ->
  DataFrame.iloc_from k df
  = DataFrame.take_rows (seq k (DataFrame.nrows df - k)) df.
Proof.
  unfold frame_wf. generalize (DataFrame.nrows df) as n.
  intros n Hwf Hk. unfold DataFrame.iloc_from, DataFrame.take_rows.
  induction Hwf as [|[name c] rest Hc Hrest IH]; [reflexivity|].
  simpl in *. rewrite IH. subst n. now rewrite col_pick_suffix by lia.
Qed.

(** In a strictly increasing list every entry of a prefix is below every
    entry of the rest. *)
Lemma increasing_split (dates : list Z) (k : nat) (a b : Z) :
  Sorted Z.lt dates -> a ∈ take k dates -> b ∈ drop k dates -> a < b.
Proof.
  intros Hs Ha Hb.
  apply Sorted_StronglySorted in Hs; [|intros x y z; apply Z.lt_trans].
  rewrite <- (take_drop k dates) in Hs.
  exact (StronglySorted_app_1_elem_of _ _ _ _ _ Hs Ha Hb).
Qed.

(** C6.  For a frame [X] of [N] rows and a target column [y],
    [chronological_split] cuts at [floor (N * (1 - TEST_SIZE))], which is
    [4N / 5]: Train is the rows before the cut and Test the rows from the
    cut on, each in the original order, column by column.  So a date column
    that increases strictly is split into Train dates that are all earlier
    than all Test dates. *)
Theorem C6_chronological_split :
  forall (X : DataFrame.t) (y : Column),
    frame_wf X ->
    exists (k : nat) (X_train X_test : DataFrame.t) (y_train y_test : Column),
      chronological_split X y = (X_train, X_test, y_train, y_test) /\
      Z.of_nat k
      = Qfloor (inject_Z (Z.of_nat (DataFrame.nrows X)) * (1 - TEST_SIZE)) /\
      Z.of_nat k = 4 * Z.of_nat (DataFrame.nrows X) / 5 /\
      (k <= DataFrame.nrows X)%nat /\
      X_train = DataFrame.take_rows (seq 0 k) X /\
      X_test = DataFrame.take_rows (seq k (DataFrame.nrows X - k)) X /\
      y_train = col_take k y /\
      y_test = col_drop k y /\
      (forall (name : string) (dates : list Z),
          DataFrame.get_dates name X = Some dates ->
          Sorted Z.lt dates ->
          exists train test : list Z,
            DataFrame.get_dates name X_train = Some train /\
            DataFrame.get_dates name X_test = Some test /\
            train ++ test = dates /\
            (forall a b : Z, a ∈ train -> b ∈ test -> a < b)).
Proof.
  intros X y Hwf.
  exists (split_idx (DataFrame.nrows X)). do 4 eexists.
  split; [reflexivity|].
  split; [apply split_idx_floor|].
  split; [apply split_idx_eq|].
  pose proof (split_idx_le (DataFrame.nrows X)) as Hle.
  split; [exact Hle|].
  split; [now apply iloc_to_rows|].
  split; [now apply iloc_from_rows|].
  split; [reflexivity|]. split; [reflexivity|].
  intros name dates Hd Hs.
  exists (take (split_idx (DataFrame.nrows X)) dates),
    (drop (split_idx (DataFrame.nrows X)) dates).
  unfold DataFrame.get_dates in *.
  rewrite get_iloc_to, get_iloc_from.
  destruct (DataFrame.get name X) as [[s|l|l]|]; try discriminate.
  injection Hd as ->. simpl.
  split; [reflexivity|]. split; [reflexivity|].
  split; [apply take_drop|].
  intros a b. now apply increasing_split.
Qed.

Lemma C6_chronological_split_witness :
  exists (k : nat) (X_train X_test : DataFrame.t) (y_train y_test : Column),
    chronological_split sample_daily (Float64 sample_pm25)
    = (X_train, X_test, y_train, y_test) /\
    Z.of_nat k
    = Qfloor (inject_Z (Z.of_nat (DataFrame.nrows sample_daily)) * (1 - TEST_SIZE)) /\
    Z.of_nat k = 4 * Z.of_nat (DataFrame.nrows sample_daily) / 5 /\
    (k <= DataFrame.nrows sample_daily)%nat /\
    X_train = DataFrame.take_rows (seq 0 k) sample_daily /\
    X_test
    = DataFrame.take_rows (seq k (DataFrame.nrows sample_daily - k)) sample_daily /\
    y_train = col_take k (Float64 sample_pm25) /\
    y_test = col_drop k (Float64 sample_pm25) /\
    (forall (name : string) (dates : list Z),
        DataFrame.get_dates name sample_daily = Some dates ->
        Sorted Z.lt dates ->
        exists train test : list Z,
          DataFrame.get_dates name X_train = Some train /\
          DataFrame.get_dates name X_test = Some test /\
          train ++ test = dates /\
          (forall a b : Z, a ∈ train -> b ∈ test -> a < b)).
Proof.
  apply (C6_chronological_split sample_daily (Float64 sample_pm25)).
  repeat constructor.
Defined.

Example chronological_split_sample :
  chronological_split sample_daily (Float64 sample_pm25)
  = ( [ ("date"%string, Datetime (take 8 sample_dates));
        ("pm25"%string, Float64 (take 8 sample_pm25)) ],
      [ ("date"%string, Datetime [19786; 19787]);
        ("pm25"%string, Float64 [Num 35.5%Q; Num 20.0%Q]) ],
      Float64 (take 8 sample_pm25),
      Float64 [Num 35.5%Q; Num 20.0%Q] ).
Proof. reflexivity. Qed.

Example split_idx_values :
  split_idx 0 = 0%nat /\ split_idx 4 = 3%nat /\ split_idx 5 = 4%nat /\
  split_idx 11 = 8%nat /\ split_idx 1088 = 870%nat.
Proof. repeat split; reflexivity. Qed.

(** ** The feature vector at training and at serving time *)

Lemma float_at_spec df name i q :
  float_at df name i = Some q ->
  exists s, DataFrame.get name df = Some (Float64 s) /\ s !! i = Some (Num q).
Proof.
  unfold float_at. intros H.
  destruct (DataFrame.get name df) as [[s|l|l]|]; try discriminate.
  destruct (s !! i) as [[|q']|] eqn:E; try discriminate.
  injection H as ->. eauto.
Qed.

Lemma int_at_spec df name i z :
  int_at df name i = Some z ->
  exists l, DataFrame.get name df = Some (Int64 l) /\ l !! i = Some z.
Proof.
  unfold int_at. intros H.
  destruct (DataFrame.get name df) as [[s|l|l]|]; try discriminate. eauto.
Qed.

(** C1.  Take any frame and a row [i] of it whose eight feature fields,
    read by name, make the observation [request].  Then the columns
    FEATURE_COLUMNS selects exist, carry these names in this order, and
    their row [i], as the floats handed to the model in training, is the
    array [predict] builds from [request], entry by entry. *)
Theorem C1_feature_order_identity :
  forall (df : DataFrame.t) (i : nat) (request : PredictRequest),
    observation df i = Some request ->
    exists X : DataFrame.t,
      DataFrame.select FEATURE_COLUMNS df = Some X /\
      map fst X = FEATURE_COLUMNS /\
      DataFrame.feature_row X i = Some (map Num (features request)).
Proof.
  intros df i request H. unfold observation in H.
  destruct (float_at df "pm25" i) as [a|] eqn:Ea; [|discriminate].
  destruct (float_at df "pm25_lag_1" i) as [b|] eqn:Eb; [|discriminate].
  destruct (float_at df "pm25_lag_2" i) as [c|] eqn:Ec; [|discriminate].
  destruct (float_at df "pm25_lag_7" i) as [d|] eqn:Ed; [|discriminate].
  destruct (float_at df "pm25_rolling_3" i) as [e|] eqn:Ee; [|discriminate].
  destruct (float_at df "pm25_rolling_7" i) as [f|] eqn:Ef; [|discriminate].
  destruct (int_at df "day_of_week" i) as [g|] eqn:Eg; [|discriminate].
  destruct (int_at df "month" i) as [h|] eqn:Eh; [|discriminate].
  simpl in H. injection H as <-.
  apply float_at_spec in Ea as (sa & Ga & La), Eb as (sb & Gb & Lb),
    Ec as (sc & Gc & Lc), Ed as (sd & Gd & Ld), Ee as (se & Ge & Le),
    Ef as (sf & Gf & Lf).
  apply int_at_spec in Eg as (lg & Gg & Lg), Eh as (lh & Gh & Lh).
  eexists. split.
  - unfold FEATURE_COLUMNS, DataFrame.select.
    rewrite Ga, Gb, Gc, Gd, Ge, Gf, Gg, Gh. reflexivity.
  - split; [reflexivity|].
    unfold DataFrame.feature_row. simpl.
    rewrite La, Lb, Lc, Ld, Le, Lf, Lg, Lh. reflexivity.
Qed.

Lemma C1_feature_order_identity_witness :
  exists X : DataFrame.t,
    DataFrame.select FEATURE_COLUMNS sample_processed = Some X /\
    map fst X = FEATURE_COLUMNS /\
    DataFrame.feature_row X 0
    = Some (map Num (features sample_request)).
Proof.
  apply (C1_feature_order_identity sample_processed 0 sample_request).
  reflexivity.
Defined.

(** What [load_data] feeds the model for the first processed sample row
    is what [predict] builds from the same numbers. *)
Example feature_row_sample :
  (load_data sample_processed ≫= fun Xy => DataFrame.feature_row (fst Xy) 0)
  = Some (map Num (features sample_request)) /\
  features sample_request
  = [35.4; 12.1; 12.0; 45.0; 99 # 5; 73 # 2; 0; 3]%Q.
Proof. split; reflexivity. Qed.

(** * Further properties *)

(** ** The calendar behind the month feature *)

(** X8.  The month [add_calendar_features] gives a row is the month of
    the row's date, unless that date is the last day of its month (the
    29th of February in leap years, the 28th otherwise): then it is the
    month after, January after December. *)
Theorem month_feature_is_of_next_date :
  forall (df : DataFrame.t) (date : list Z) (i : nat) (d : Z),
    DataFrame.get_dates "date" df = Some date ->
    date !! i = Some d ->
    exists (df' : DataFrame.t) (mon : list Z),
      add_calendar_features df = Some df' /\
      DataFrame.get "month" df' = Some (Int64 mon) /\
      mon !! i
      = Some (let '(y, m, day) := civil_of_days d in
              if day <? days_in_month y m then m
              else if m <? 12 then m + 1 else 1).
Proof.
  intros df date i d Hdate Hi.
  eexists. exists (map month (map (fun d => d + 1) date)).
  split; [apply (add_calendar_features_eq _ _ Hdate)|].
  split; [now frame_lookup|].
  rewrite !list_lookup_fmap, Hi. cbn [fmap option_fmap option_map]. f_equal.
  unfold month. rewrite civil_succ.
  destruct (civil_of_days d) as [[y m] day]. unfold next_civil.
  destruct (day <? days_in_month y m); [reflexivity|].
  now destruct (m <? 12).
Qed.

Lemma month_feature_is_of_next_date_witness :
  exists (df' : DataFrame.t) (mon : list Z),
    add_calendar_features sample_daily = Some df' /\
    DataFrame.get "month" df' = Some (Int64 mon) /\
    mon !! 4%nat
    = Some (let '(y, m, day) := civil_of_days 19782 in
            if day <? days_in_month y m then m
            else if m <? 12 then m + 1 else 1).
Proof.
  apply (month_feature_is_of_next_date sample_daily sample_dates 4 19782);
    reflexivity.
Defined.

(** ** add_target *)

Lemma add_target_eq df s :
  DataFrame.get_float "pm25" df = Some s ->
  add_target df
  = Some (DataFrame.set TARGET_COLUMN (Float64 (shift (-1) s)) df).
Proof. intros H. unfold add_target. now rewrite H. Qed.

(** X1.  [add_target] gives row [i] the pm25 of row [i + 1], and NaN to
    the last row; the column has the length of pm25. *)
Theorem add_target_next_row :
  forall (df : DataFrame.t) (s : Series) (i : nat),
    DataFrame.get_float "pm25" df = Some s ->
    (i < length s)%nat ->
    exists (df' : DataFrame.t) (target : Series),
      add_target df = Some df' /\
      DataFrame.get_float TARGET_COLUMN df' = Some target /\
      length target = length s /\
      ((i + 1 < length s)%nat -> target !! i = s !! (i + 1)%nat) /\
      ((i + 1 = length s)%nat -> target !! i = Some NaN).
Proof.
  intros df s i Hs Hi.
  eexists. exists (shift (-1) s).
  split; [apply (add_target_eq _ _ Hs)|].
  split; [apply get_float_set_eq|].
  split; [apply shift_length|].
  change (-1) with (- Z.of_nat 1).
  rewrite (shift_up_lookup 1 s i) by (assumption || lia).
  split; intros H.
  - apply Nat.ltb_lt in H. now rewrite H.
  - assert (H' : (i + 1 <? length s)%nat = false) by (apply Nat.ltb_ge; lia).
    now rewrite H'.
Qed.

Lemma add_target_next_row_witness :
  exists (df' : DataFrame.t) (target : Series),
    add_target sample_daily = Some df' /\
    DataFrame.get_float TARGET_COLUMN df' = Some target /\
    length target = length sample_pm25 /\
    ((9 + 1 < length sample_pm25)%nat
     -> target !! 9%nat = sample_pm25 !! (9 + 1)%nat) /\
    ((9 + 1 = length sample_pm25)%nat -> target !! 9%nat = Some NaN).
Proof.
  apply (add_target_next_row sample_daily sample_pm25 9).
  - reflexivity.
  - simpl. lia.
Defined.

(** ** Missing columns *)

Lemma select_None names df :
  DataFrame.select names df = None
  <-> exists name, In name names /\ DataFrame.get name df = None.
Proof.
  induction names as [|n rest IH]; simpl.
  - split; [discriminate|intros (name & [] & _)].
  - destruct (DataFrame.get n df) as [c|] eqn:Hn.
    + destruct (DataFrame.select rest df) as [cols|] eqn:Hrest.
      * split; [discriminate|].
        intros (name & [<-|Hin] & Hname); [congruence|].
        assert (Hex : exists name, In name rest /\ DataFrame.get name df = None)
          by eauto.
        apply IH in Hex. discriminate Hex.
      * split; [|reflexivity]. intros _.
        destruct (proj1 IH eq_refl) as (name & Hin & Hname). eauto.
    + split; [|reflexivity]. intros _. exists n. auto.
Qed.

(** X2.  A frame without a pm25 column stops the lag, rolling and target
    steps, one without a date column stops the calendar step, and
    [clean_and_save] fails exactly when one of the nine columns it keeps
    is absent: these are the KeyErrors of the pipeline. *)
Theorem missing_columns_stop_the_pipeline :
  forall df : DataFrame.t,
    (DataFrame.get "pm25" df = None ->
     add_lag_features df = None /\
     add_rolling_averages df = None /\
     add_target df = None) /\
    (DataFrame.get "date" df = None -> add_calendar_features df = None) /\
    (clean_and_save df = None
     <-> exists name, In name (FEATURE_COLUMNS ++ [TARGET_COLUMN])
                      /\ DataFrame.get name df = None).
Proof.
  intros df. split; [|split].
  - intros H.
    unfold add_lag_features, add_rolling_averages, add_target,
      DataFrame.get_float.
    rewrite H. auto.
  - intros H. unfold add_calendar_features, DataFrame.get_dates.
    now rewrite H.
  - rewrite <- select_None. unfold clean_and_save.
    destruct (DataFrame.select _ df); simpl; split; congruence.
Qed.

Lemma missing_columns_stop_the_pipeline_witness :
  clean_and_save sample_daily = None.
Proof.
  destruct (missing_columns_stop_the_pipeline sample_daily) as (_ & _ & H).
  apply H. exists "pm25_lag_1"%string. split; [|reflexivity].
  simpl. auto.
Defined.

(** ** What the feature steps leave alone *)

Lemma set_same name c df :
  DataFrame.get name df = Some c -> DataFrame.set name c df = df.
Proof.
  induction df as [|[n c'] rest IH]; simpl; [discriminate|].
  destruct (String.eqb n name) eqn:E.
  - intros H. injection H as ->. reflexivity.
  - intros H. now rewrite (IH H).
Qed.

(** X3.  The feature steps write eight columns and the target; every
    other column of the frame, and so pm25 and date, comes out as it went
    in. *)
Theorem feature_steps_keep_other_columns :
  forall (df df' : DataFrame.t) (name : string),
    feature_table df = Some df' ->
    ~ In name [ "pm25_lag_1"; "pm25_lag_2"; "pm25_lag_7";
                "pm25_rolling_3"; "pm25_rolling_7";
                "day_of_week"; "month"; "pm25_next_day" ]%string ->
    DataFrame.get name df' = DataFrame.get name df.
Proof.
  intros df df' name H Hname.
  unfold feature_table, add_lag_features, add_rolling_averages,
    add_calendar_features, add_target in H.
  repeat match type of H with
    | context [DataFrame.get_float ?n ?d] =>
        destruct (DataFrame.get_float n d); simpl in H; [|discriminate H]
    | context [DataFrame.get_dates ?n ?d] =>
        destruct (DataFrame.get_dates n d); simpl in H; [|discriminate H]
    end.
  injection H as <-.
  rewrite !get_set_ne
    by (intros E; apply Hname; subst name; unfold TARGET_COLUMN;
        simpl; auto 12).
  reflexivity.
Qed.

Lemma feature_steps_keep_other_columns_witness :
  DataFrame.get "pm25" (full_table sample_dates sample_pm25)
  = DataFrame.get "pm25" sample_daily.
Proof.
  apply (feature_steps_keep_other_columns sample_daily
           (full_table sample_dates sample_pm25) "pm25").
  - reflexivity.
  - simpl. intros [E|[E|[E|[E|[E|[E|[E|[E|[]]]]]]]]]; discriminate E.
Defined.

(** X4.  Running a feature step again on its own result changes nothing:
    the columns are assigned by name, and the values depend on pm25 and
    date only. *)
Theorem feature_steps_idempotent :
  forall df df' : DataFrame.t,
    (add_lag_features df = Some df' -> add_lag_features df' = Some df') /\
    (add_rolling_averages df = Some df'
     -> add_rolling_averages df' = Some df') /\
    (add_calendar_features df = Some df'
     -> add_calendar_features df' = Some df') /\
    (add_target df = Some df' -> add_target df' = Some df').
Proof.
  intros df df'. repeat split; intros H.
  - destruct (DataFrame.get_float "pm25" df) as [s|] eqn:Hs;
      [|unfold add_lag_features in H; rewrite Hs in H; discriminate H].
    rewrite (add_lag_features_eq _ _ Hs) in H. injection H as <-.
    erewrite add_lag_features_eq by (frame_lookup; exact Hs).
    f_equal.
    rewrite (set_same "pm25_lag_1") by now frame_lookup.
    rewrite (set_same "pm25_lag_2") by now frame_lookup.
    rewrite (set_same "pm25_lag_7") by now frame_lookup.
    reflexivity.
  - destruct (DataFrame.get_float "pm25" df) as [s|] eqn:Hs;
      [|unfold add_rolling_averages in H; rewrite Hs in H; discriminate H].
    rewrite (add_rolling_averages_eq _ _ Hs) in H. injection H as <-.
    erewrite add_rolling_averages_eq by (frame_lookup; exact Hs).
    f_equal.
    rewrite (set_same "pm25_rolling_3") by now frame_lookup.
    rewrite (set_same "pm25_rolling_7") by now frame_lookup.
    reflexivity.
  - destruct (DataFrame.get_dates "date" df) as [d|] eqn:Hd;
      [|unfold add_calendar_features in H; rewrite Hd in H; discriminate H].
    rewrite (add_calendar_features_eq _ _ Hd) in H. injection H as <-.
    erewrite add_calendar_features_eq by (frame_lookup; exact Hd).
    f_equal.
    rewrite (set_same "day_of_week") by now frame_lookup.
    rewrite (set_same "month") by now frame_lookup.
    reflexivity.
  - destruct (DataFrame.get_float "pm25" df) as [s|] eqn:Hs;
      [|unfold add_target in H; rewrite Hs in H; discriminate H].
    rewrite (add_target_eq _ _ Hs) in H. injection H as <-.
    erewrite add_target_eq by (unfold TARGET_COLUMN; frame_lookup; exact Hs).
    f_equal. apply set_same. apply get_set_eq.
Qed.

Lemma feature_steps_idempotent_witness :
  add_lag_features (default [] (add_lag_features sample_daily))
  = Some (default [] (add_lag_features sample_daily)).
Proof.
  apply (proj1 (feature_steps_idempotent sample_daily
                  (default [] (add_lag_features sample_daily)))).
  reflexivity.
Defined.

(** ** What dropna leaves *)

Lemma pick_cons {A : Type} (r : nat) (rows : list nat) (l : list A) :
  pick (r :: rows) l
  = match l !! r with
    | Some x => x :: pick rows l
    | None => pick rows l
    end.
Proof. reflexivity. Qed.

Lemma pick_lookup {A : Type} (rows : list nat) (l : list A) :
  Forall (fun i => is_Some (l !! i)) rows ->
  length (pick rows l) = length rows /\
  forall j i, rows !! j = Some i -> pick rows l !! j = l !! i.
Proof.
  induction 1 as [|r rows [x Hx] Hrows [IHlen IH]].
  - split; [reflexivity|]. intros j i H. discriminate H.
  - rewrite pick_cons, Hx. split; [simpl; now rewrite IHlen|].
    intros [|j] i H.
    + injection H as <-. now rewrite Hx.
    + now apply IH.
Qed.

Lemma col_isna_false_Some c i :
  col_isna c i = false ->
  match c with
  | Float64 s => exists q, s !! i = Some (Num q)
  | Int64 l => is_Some (l !! i)
  | Datetime l => is_Some (l !! i)
  end.
Proof.
  destruct c as [s|l|l]; simpl.
  - destruct (s !! i) as [[|q]|]; try discriminate. eauto.
  - destruct (l !! i); [eauto|discriminate].
  - destruct (l !! i); [eauto|discriminate].
Qed.

Lemma complete_rows_spec df i :
  In i (DataFrame.complete_rows df)
  <-> (i < DataFrame.nrows df)%nat /\ DataFrame.row_complete df i = true.
Proof.
  unfold DataFrame.complete_rows.
  rewrite <- list_elem_of_In, list_elem_of_filter, list_elem_of_In, in_seq.
  intuition lia.
Qed.

Lemma row_complete_col df i name c :
  DataFrame.row_complete df i = true -> In (name, c) df ->
  col_isna c i = false.
Proof.
  unfold DataFrame.row_complete. rewrite forallb_forall. intros H Hin.
  specialize (H _ Hin). simpl in H. now apply negb_true_iff.
Qed.

(** A column of a frame after dropna: as long as the list of kept rows,
    with no missing value. *)
Lemma dropna_column df name c :
  In (name, c) (DataFrame.dropna df) ->
  col_len c = length (DataFrame.complete_rows df) /\
  forall j, (j < length (DataFrame.complete_rows df))%nat ->
            col_isna c j = false.
Proof.
  unfold DataFrame.dropna, DataFrame.take_rows. rewrite in_map_iff.
  intros ([n c0] & E & Hin). simpl in E. injection E as <- <-.
  set (rows := DataFrame.complete_rows df).
  assert (Hrows : forall i, In i rows -> col_isna c0 i = false).
  { intros i Hi. apply complete_rows_spec in Hi as [_ Hi].
    exact (row_complete_col _ _ _ _ Hi Hin). }
  destruct c0 as [s|l|l]; simpl.
  - assert (Hall : Forall (fun i => is_Some (s !! i)) rows).
    { apply List.Forall_forall. intros i Hi.
      destruct (col_isna_false_Some _ _ (Hrows i Hi)) as [q ->]. eauto. }
    destruct (pick_lookup rows s Hall) as [Hlen Hlook].
    split; [exact Hlen|]. intros j Hj.
    destruct (lookup_lt_is_Some_2 rows j Hj) as [i Hi].
    rewrite (Hlook j i Hi).
    assert (Hin' : In i rows)
      by (apply list_elem_of_In, list_elem_of_lookup; eauto).
    destruct (col_isna_false_Some _ _ (Hrows i Hin')) as [q ->]. reflexivity.
  - assert (Hall : Forall (fun i => is_Some (l !! i)) rows).
    { apply List.Forall_forall. intros i Hi.
      exact (col_isna_false_Some _ _ (Hrows i Hi)). }
    destruct (pick_lookup rows l Hall) as [Hlen Hlook].
    split; [exact Hlen|]. intros j Hj.
    destruct (lookup_lt_is_Some_2 (pick rows l) j ltac:(lia)) as [x ->].
    reflexivity.
  - assert (Hall : Forall (fun i => is_Some (l !! i)) rows).
    { apply List.Forall_forall. intros i Hi.
      exact (col_isna_false_Some _ _ (Hrows i Hi)). }
    destruct (pick_lookup rows l Hall) as [Hlen Hlook].
    split; [exact Hlen|]. intros j Hj.
    destruct (lookup_lt_is_Some_2 (pick rows l) j ltac:(lia)) as [x ->].
    reflexivity.
Qed.

Lemma select_names names df X :
  DataFrame.select names df = Some X -> map fst X = names.
Proof.
  revert X. induction names as [|n rest IH]; simpl; intros X H.
  - now injection H as <-.
  - destruct (DataFrame.get n df); [|discriminate].
    destruct (DataFrame.select rest df); [|discriminate].
    injection H as <-. simpl. f_equal. now apply IH.
Qed.

(** X5.  Whatever frame [clean_and_save] is given, the frame it returns
    has the eight feature columns and the target, in this order, all of
    one length, and no missing value anywhere. *)
Theorem clean_and_save_output_complete :
  forall df out : DataFrame.t,
    clean_and_save df = Some out ->
    map fst out = FEATURE_COLUMNS ++ [TARGET_COLUMN] /\
    forall (name : string) (c : Column),
      In (name, c) out ->
      col_len c = DataFrame.nrows out /\
      forall i, (i < DataFrame.nrows out)%nat -> col_isna c i = false.
Proof.
  intros df out H. unfold clean_and_save in H.
  destruct (DataFrame.select _ df) as [kept|] eqn:Hk; [|discriminate].
  simpl in H. injection H as <-.
  pose proof (select_names _ _ _ Hk) as Hnames.
  split.
  - unfold DataFrame.dropna, DataFrame.take_rows.
    rewrite map_map. simpl. exact Hnames.
  - assert (Hn : DataFrame.nrows (DataFrame.dropna kept)
                 = length (DataFrame.complete_rows kept)).
    { destruct kept as [|[n0 c0] rest]; [discriminate Hnames|].
      apply (dropna_column ((n0, c0) :: rest) n0
               (col_pick (DataFrame.complete_rows ((n0, c0) :: rest)) c0)).
      left. reflexivity. }
    intros name c Hin. rewrite Hn. now apply (dropna_column kept name).
Qed.

Lemma clean_and_save_output_complete_witness :
  map fst sample_processed = FEATURE_COLUMNS ++ [TARGET_COLUMN].
Proof.
  destruct (clean_and_save_output_complete
              (full_table sample_dates sample_pm25) sample_processed)
    as [H _]; [|exact H].
  reflexivity.
Defined.

(** ** Series too short, and series with a missing day *)

Lemma get_In name c df :
  DataFrame.get name df = Some c -> In (name, c) df.
Proof.
  induction df as [|[n c'] rest IH]; simpl; [discriminate|].
  destruct (String.eqb_spec n name) as [->|Hne].
  - intros H. injection H as ->. now left.
  - intros H. right. now apply IH.
Qed.

Lemma lag7_short s i :
  (i < 7)%nat -> (i < length s)%nat ->
  col_isna (Float64 (shift 7 s)) i = true.
Proof.
  intros H7 Hi. simpl. change 7 with (Z.of_nat 7).
  rewrite shift_down_lookup by assumption.
  assert (E : (i <? 7)%nat = true) by now apply Nat.ltb_lt.
  now rewrite E.
Qed.

Lemma target_last s i :
  (i < length s)%nat -> (length s <= i + 1)%nat ->
  col_isna (Float64 (shift (-1) s)) i = true.
Proof.
  intros Hi Hl. simpl. change (-1) with (- Z.of_nat 1).
  rewrite (shift_up_lookup 1 s i) by (assumption || lia).
  assert (E : (i + 1 <? length s)%nat = false) by (apply Nat.ltb_ge; lia).
  now rewrite E.
Qed.

(** X6.  A daily series of at most 8 records, defined or not, gives no
    sample at all: every row lacks its 7-day lag or its next day. *)
Theorem short_series_gives_no_sample :
  forall (date : list Z) (s : Series),
    (length s <= 8)%nat ->
    exists out : DataFrame.t,
      preprocess (daily_frame date s) = Some out /\
      DataFrame.nrows out = 0%nat /\
      forall (name : string) (c : Column), In (name, c) out -> col_len c = 0%nat.
Proof.
  intros date s HN.
  assert (Hrows : DataFrame.complete_rows (kept_table date s) = []).
  { unfold DataFrame.complete_rows.
    change (DataFrame.nrows (kept_table date s)) with (length s).
    apply filter_seq_none. intros i Hi Hc.
    destruct (Nat.lt_ge_cases i 7) as [H7|H7].
    - pose proof (row_complete_col _ i "pm25_lag_7" _ Hc
                    (get_In "pm25_lag_7" (Float64 (shift 7 s))
                       (kept_table date s) eq_refl)) as Hna.
      rewrite lag7_short in Hna by lia. discriminate Hna.
    - pose proof (row_complete_col _ i "pm25_next_day" _ Hc
                    (get_In "pm25_next_day" (Float64 (shift (-1) s))
                       (kept_table date s) eq_refl)) as Hna.
      rewrite target_last in Hna by lia. discriminate Hna. }
  exists (DataFrame.take_rows [] (kept_table date s)).
  split.
  - unfold preprocess. rewrite feature_table_eq. simpl.
    unfold clean_and_save. rewrite select_full_table. simpl.
    unfold DataFrame.dropna. now rewrite Hrows.
  - split; [reflexivity|].
    intros name c Hin. unfold DataFrame.take_rows in Hin.
    apply in_map_iff in Hin as ([n c0] & E & _). simpl in E.
    injection E as <- <-. now destruct c0.
Qed.

Lemma short_series_gives_no_sample_witness :
  exists out : DataFrame.t,
    preprocess (daily_frame (take 8 sample_dates) (take 8 sample_pm25))
    = Some out /\
    DataFrame.nrows out = 0%nat /\
    forall (name : string) (c : Column), In (name, c) out -> col_len c = 0%nat.
Proof.
  apply (short_series_gives_no_sample (take 8 sample_dates) (take 8 sample_pm25)).
  simpl. lia.
Defined.

(** X7.  A day without a pm25 value costs nine samples: the rows from the
    day before it to the seventh day after it are all dropped, whatever
    the other values are. *)
Theorem missing_day_drops_nine_rows :
  forall (date : list Z) (s : Series) (j : nat),
    s !! j = Some NaN ->
    exists full kept : DataFrame.t,
      feature_table (daily_frame date s) = Some full /\
      DataFrame.select (FEATURE_COLUMNS ++ [TARGET_COLUMN]) full = Some kept /\
      forall i, (j <= i + 1)%nat -> (i <= j + 7)%nat ->
                ~ In i (DataFrame.complete_rows kept).
Proof.
  intros date s j Hj.
  exists (full_table date s), (kept_table date s).
  split; [apply feature_table_eq|]. split; [apply select_full_table|].
  intros i Hlo Hhi Hin.
  apply complete_rows_spec in Hin as [Hi Hc].
  change (DataFrame.nrows (kept_table date s)) with (length s) in Hi.
  pose proof (lookup_lt_Some _ _ _ Hj) as HjN.
  assert (Hcol : forall name c,
             DataFrame.get name (kept_table date s) = Some c ->
             col_isna c i = false).
  { intros name c Hg. apply (row_complete_col _ _ name _ Hc).
    now apply get_In. }
  destruct (Nat.eq_dec (i + 1)%nat j) as [E|E1].
  - pose proof (Hcol "pm25_next_day"%string _ eq_refl) as Hna.
    simpl in Hna. change (-1) with (- Z.of_nat 1) in Hna.
    rewrite (shift_up_lookup 1 s i) in Hna by (assumption || lia).
    assert (Eb : (i + 1 <? length s)%nat = true) by (apply Nat.ltb_lt; lia).
    rewrite Eb, E, Hj in Hna. discriminate Hna.
  - destruct (Nat.eq_dec i (j + 7)%nat) as [E|E7].
    + pose proof (Hcol "pm25_lag_7"%string _ eq_refl) as Hna.
      simpl in Hna. change 7 with (Z.of_nat 7) in Hna.
      rewrite shift_down_lookup in Hna by assumption.
      assert (Eb : (i <? 7)%nat = false) by (apply Nat.ltb_ge; lia).
      rewrite Eb in Hna. replace (i - 7)%nat with j in Hna by lia.
      rewrite Hj in Hna. discriminate Hna.
    + pose proof (Hcol "pm25_rolling_7"%string _ eq_refl) as Hna.
      simpl in Hna. unfold series_round in Hna.
      rewrite list_lookup_fmap in Hna.
      rewrite (rolling_gap 7 s i j) in Hna by (assumption || lia).
      discriminate Hna.
Qed.

Lemma missing_day_drops_nine_rows_witness :
  exists full kept : DataFrame.t,
    feature_table (daily_frame sample_dates (<[1%nat := NaN]> sample_pm25))
    = Some full /\
    DataFrame.select (FEATURE_COLUMNS ++ [TARGET_COLUMN]) full = Some kept /\
    forall i, (1 <= i + 1)%nat -> (i <= 1 + 7)%nat ->
              ~ In i (DataFrame.complete_rows kept).
Proof.
  apply (missing_day_drops_nine_rows sample_dates (<[1%nat := NaN]> sample_pm25) 1).
  reflexivity.
Defined.

(** ** The split, row by row *)

Lemma col_take_len k c : col_len (col_take k c) = Nat.min k (col_len c).
Proof. destruct c; simpl; apply length_take. Qed.

Lemma col_drop_len k c : col_len (col_drop k c) = (col_len c - k)%nat.
Proof. destruct c; simpl; apply length_drop. Qed.

Lemma nrows_iloc_to k df :
  DataFrame.nrows (DataFrame.iloc_to k df) = Nat.min k (DataFrame.nrows df).
Proof. destruct df as [|[n c] rest]; simpl; [lia|apply col_take_len]. Qed.

Lemma nrows_iloc_from k df :
  DataFrame.nrows (DataFrame.iloc_from k df) = (DataFrame.nrows df - k)%nat.
Proof. destruct df as [|[n c] rest]; simpl; [lia|apply col_drop_len]. Qed.

(** X9.  Train and Test share the rows out between them: Train has
    [4N / 5] of the [N] rows, Test the rest, which is at least a fifth of
    them; so Test is empty only for an empty dataset, and a dataset of one
    row leaves Train empty. *)
Theorem chronological_split_sizes :
  forall (X : DataFrame.t) (y : Column),
    let '(X_train, X_test, y_train, y_test) := chronological_split X y in
    let N := DataFrame.nrows X in
    Z.of_nat (DataFrame.nrows X_train) = 4 * Z.of_nat N / 5 /\
    (DataFrame.nrows X_train + DataFrame.nrows X_test = N)%nat /\
    Z.of_nat N <= 5 * Z.of_nat (DataFrame.nrows X_test) /\
    (DataFrame.nrows X_test = 0%nat <-> N = 0%nat) /\
    (DataFrame.nrows X_train = 0%nat <-> (N <= 1)%nat) /\
    (col_len y = N ->
     col_len y_train = DataFrame.nrows X_train /\
     col_len y_test = DataFrame.nrows X_test).
Proof.
  intros X y. unfold chronological_split. cbv zeta.
  rewrite nrows_iloc_to, nrows_iloc_from, col_take_len, col_drop_len.
  pose proof (split_idx_eq (DataFrame.nrows X)) as Hk.
  pose proof (split_idx_le (DataFrame.nrows X)) as Hle.
  set (N := DataFrame.nrows X) in *. set (k := split_idx N) in *.
  rewrite Nat.min_l by exact Hle.
  assert (Hdiv : 4 * Z.of_nat N - 4 <= 5 * (4 * Z.of_nat N / 5)
                 /\ 5 * (4 * Z.of_nat N / 5) <= 4 * Z.of_nat N)
    by (Z.div_mod_to_equations; lia).
  repeat split; try lia.
  all: intros Hy; rewrite Hy; lia.
Qed.

Lemma lookup_col_take k c i :
  (i < k)%nat -> col_float (col_take k c) i = col_float c i.
Proof.
  intros H. destruct c; simpl; try reflexivity;
    now rewrite lookup_take_lt.
Qed.

Lemma lookup_col_drop k c i :
  col_float (col_drop k c) i = col_float c (k + i).
Proof. destruct c; simpl; try reflexivity; now rewrite lookup_drop. Qed.

Lemma feature_row_iloc_to k df i :
  (i < k)%nat ->
  DataFrame.feature_row (DataFrame.iloc_to k df) i = DataFrame.feature_row df i.
Proof.
  intros H. unfold DataFrame.feature_row, DataFrame.iloc_to.
  induction df as [|[n c] rest IH]; [reflexivity|].
  cbn [map mapM fst snd]. rewrite lookup_col_take by assumption.
  destruct (col_float c i); [|reflexivity]. simpl.
  cbn [mapM] in IH. now rewrite IH.
Qed.

Lemma feature_row_iloc_from k df i :
  DataFrame.feature_row (DataFrame.iloc_from k df) i
  = DataFrame.feature_row df (k + i).
Proof.
  unfold DataFrame.feature_row, DataFrame.iloc_from.
  induction df as [|[n c] rest IH]; [reflexivity|].
  cbn [map mapM fst snd]. rewrite lookup_col_drop.
  destruct (col_float c (k + i)); [|reflexivity]. simpl.
  cbn [mapM] in IH. now rewrite IH.
Qed.

(** X10.  The split keeps every sample whole: row [i] of Train is row [i]
    of the data with the target of row [i], and row [j] of Test is row
    [k + j] of the data with the target of row [k + j], [k] being the
    number of Train rows. *)
Theorem chronological_split_keeps_samples :
  forall (X : DataFrame.t) (y : Column),
    let '(X_train, X_test, y_train, y_test) := chronological_split X y in
    let k := split_idx (DataFrame.nrows X) in
    (forall i, (i < k)%nat ->
               DataFrame.feature_row X_train i = DataFrame.feature_row X i /\
               col_float y_train i = col_float y i) /\
    (forall j, DataFrame.feature_row X_test j = DataFrame.feature_row X (k + j) /\
               col_float y_test j = col_float y (k + j)).
Proof.
  intros X y. unfold chronological_split. cbv zeta. split.
  - intros i Hi. split.
    + now apply feature_row_iloc_to.
    + now apply lookup_col_take.
  - intros j. split.
    + apply feature_row_iloc_from.
    + apply lookup_col_drop.
Qed.

Lemma chronological_split_keeps_samples_witness :
  DataFrame.feature_row
    (DataFrame.iloc_to (split_idx 2) sample_processed) 0
  = DataFrame.feature_row sample_processed 0.
Proof.
  pose proof (chronological_split_keeps_samples sample_processed (Int64 []))
    as H.
  unfold chronological_split in H. cbv zeta in H.
  destruct H as [H _]. apply H. vm_compute. lia.
Defined.

Lemma chronological_split_sizes_witness :
  col_len (col_take (split_idx 10) (Float64 sample_pm25))
  = DataFrame.nrows (DataFrame.iloc_to (split_idx 10) sample_daily).
Proof.
  pose proof (chronological_split_sizes sample_daily (Float64 sample_pm25))
    as H.
  unfold chronological_split in H. cbv zeta in H.
  destruct H as (_ & _ & _ & _ & _ & H). apply H. reflexivity.
Defined.

(** ** The processed rows are consecutive days *)

(** On a series without NaN, what [preprocess] returns. *)
Lemma preprocess_defined date s :
  length date = length s ->
  (8 <= length s)%nat ->
  Forall (fun c => isna c = false) s ->
  preprocess (daily_frame date s)
  = Some (DataFrame.iloc_to (length s - 8)
            (DataFrame.iloc_from 7 (kept_table date s))).
Proof.
  intros Hlen HN Hs.
  assert (Hrows : DataFrame.complete_rows (kept_table date s)
                  = seq 7 (length s - 8)).
  { unfold DataFrame.complete_rows.
    change (DataFrame.nrows (kept_table date s)) with (length s).
    replace (length s - 8)%nat with (length s - 1 - 7)%nat by lia.
    apply filter_seq_interval; [lia|lia|].
    intros i Hi. now apply row_complete_kept. }
  unfold preprocess. rewrite feature_table_eq. simpl.
  unfold clean_and_save. rewrite select_full_table. simpl.
  unfold DataFrame.dropna. rewrite Hrows. f_equal.
  unfold DataFrame.take_rows, DataFrame.iloc_to, DataFrame.iloc_from,
    kept_table. cbn [map fst snd].
  rewrite !col_pick_seq; [reflexivity|..]; unfold col_len;
    rewrite ?shift_length, ?series_round_length, ?rolling_mean_length,
      ?length_map; lia.
Qed.

(** X11.  In the dataset made from a series without NaN, consecutive
    rows are consecutive days: the target of a row is the pm25 of the row
    after it, and the 1-day lag of that row is the pm25 of this one.  The
    first row is the eighth day, and the last target is the last day. *)
Theorem processed_rows_are_consecutive :
  forall (date : list Z) (s : Series),
    length date = length s ->
    (9 <= length s)%nat ->
    Forall (fun c => isna c = false) s ->
    exists (out : DataFrame.t) (today target lag_1 : Series),
      preprocess (daily_frame date s) = Some out /\
      DataFrame.get_float "pm25" out = Some today /\
      DataFrame.get_float TARGET_COLUMN out = Some target /\
      DataFrame.get_float "pm25_lag_1" out = Some lag_1 /\
      (forall i, (i + 1 < length s - 8)%nat ->
                 target !! i = today !! (i + 1)%nat /\
                 lag_1 !! (i + 1)%nat = today !! i) /\
      today !! 0%nat = s !! 7%nat /\
      target !! (length s - 9)%nat = s !! (length s - 1)%nat.
Proof.
  intros date s Hlen HN Hs.
  eexists.
  exists (take (length s - 8) (drop 7 s)),
    (take (length s - 8) (drop 7 (shift (-1) s))),
    (take (length s - 8) (drop 7 (shift 1 s))).
  split; [apply preprocess_defined; (assumption || lia)|].
  split; [reflexivity|]. split; [reflexivity|]. split; [reflexivity|].
  assert (Hup : forall i, (i + 1 < length s)%nat ->
                          shift (-1) s !! i = s !! (i + 1)%nat).
  { intros i Hi. change (-1) with (- Z.of_nat 1).
    rewrite (shift_up_lookup 1 s i) by lia.
    assert (E : (i + 1 <? length s)%nat = true) by now apply Nat.ltb_lt.
    now rewrite E. }
  assert (Hdown : forall i, (1 <= i)%nat -> (i < length s)%nat ->
                            shift 1 s !! i = s !! (i - 1)%nat).
  { intros i H1 Hi. change 1 with (Z.of_nat 1).
    rewrite (shift_down_lookup 1 s i) by lia.
    assert (E : (i <? 1)%nat = false) by (apply Nat.ltb_ge; lia).
    now rewrite E. }
  split; [|split].
  - intros i Hi. rewrite !lookup_take_lt, !lookup_drop by lia.
    rewrite Hup, Hdown by lia. split; f_equal; lia.
  - rewrite lookup_take_lt, lookup_drop by lia. f_equal.
  - rewrite lookup_take_lt, lookup_drop by lia.
    rewrite Hup by lia. f_equal. lia.
Qed.

Lemma processed_rows_are_consecutive_witness :
  exists (out : DataFrame.t) (today target lag_1 : Series),
    preprocess sample_daily = Some out /\
    DataFrame.get_float "pm25" out = Some today /\
    DataFrame.get_float TARGET_COLUMN out = Some target /\
    DataFrame.get_float "pm25_lag_1" out = Some lag_1 /\
    (forall i, (i + 1 < length sample_pm25 - 8)%nat ->
               target !! i = today !! (i + 1)%nat /\
               lag_1 !! (i + 1)%nat = today !! i) /\
    today !! 0%nat = sample_pm25 !! 7%nat /\
    target !! (length sample_pm25 - 9)%nat
    = sample_pm25 !! (length sample_pm25 - 1)%nat.
Proof.
  apply (processed_rows_are_consecutive sample_dates sample_pm25).
  - reflexivity.
  - simpl. lia.
  - repeat constructor.
Defined.

(** ** Clamping *)

Local Open Scope Q_scope.

Lemma max_Qmax (a b : Q) : Py.max a b == Qmax a b.
Proof.
  unfold Py.max.
  destruct (Qle_bool b a) eqn:E.
  - apply Qle_bool_iff in E. symmetry. now apply Q.max_l.
  - assert (H : ~ b <= a) by (rewrite <- Qle_bool_iff; congruence).
    apply Qnot_le_lt in H. symmetry. apply Q.max_r. lra.
Qed.

Lemma max_ge_0 (a : Q) : 0 <= Py.max a 0.
Proof.
  unfold Py.max. destruct (Qle_bool 0 a) eqn:E; [|lra].
  now apply Qle_bool_iff.
Qed.

(** ** The health category *)

(** Turns every test [Qle_bool a b] of the goal into an order fact. *)
Ltac breakpoints :=
  repeat match goal with
    | |- context [Qle_bool ?a ?b] =>
        let E := fresh "E" in
        destruct (Qle_bool a b) eqn:E;
        [ apply Qle_bool_iff in E
        | apply not_true_iff_false in E; rewrite Qle_bool_iff in E;
          apply Qnot_le_lt in E ]
    end.

Lemma category_cases (x : Q) :
  (x <= 12.0 /\ pm25_to_aqi_category x = "Good"%string) \/
  (12.0 < x /\ x <= 35.4 /\ pm25_to_aqi_category x = "Moderate"%string) \/
  (35.4 < x /\ x <= 55.4 /\
   pm25_to_aqi_category x = "Unhealthy for Sensitive Groups"%string) \/
  (55.4 < x /\ x <= 150.4 /\ pm25_to_aqi_category x = "Unhealthy"%string) \/
  (150.4 < x /\ x <= 250.4 /\
   pm25_to_aqi_category x = "Very Unhealthy"%string) \/
  (250.4 < x /\ pm25_to_aqi_category x = "Hazardous"%string).
Proof. unfold pm25_to_aqi_category. breakpoints; tauto. Qed.

Lemma category_monotone (x y : Q) :
  x <= y ->
  (severity (pm25_to_aqi_category x) <= severity (pm25_to_aqi_category y))%nat.
Proof.
  intros H.
  destruct (category_cases x) as [C|[C|[C|[C|[C|C]]]]];
    destruct (category_cases y) as [D|[D|[D|[D|[D|D]]]]];
    repeat match goal with H : _ /\ _ |- _ => destruct H end;
    repeat match goal with H : pm25_to_aqi_category _ = _ |- _ => rewrite H end;
    first [ exfalso; lra | vm_compute; lia ].
Qed.

(** C7.  [pm25_to_aqi_category] is a step function of its argument: each
    value falls, with inclusive upper boundaries tested in ascending order,
    into exactly the category the table gives; a larger value never gets a
    less severe category; and the five quoted values map as quoted. *)
Theorem C7_aqi_category_step_function :
  (forall x : Q, x <= 12.0 -> pm25_to_aqi_category x = "Good"%string) /\
  (forall x : Q, 12.0 < x -> x <= 35.4 ->
                 pm25_to_aqi_category x = "Moderate"%string) /\
  (forall x : Q, 35.4 < x -> x <= 55.4 ->
                 pm25_to_aqi_category x
                 = "Unhealthy for Sensitive Groups"%string) /\
  (forall x : Q, 55.4 < x -> x <= 150.4 ->
                 pm25_to_aqi_category x = "Unhealthy"%string) /\
  (forall x : Q, 150.4 < x -> x <= 250.4 ->
                 pm25_to_aqi_category x = "Very Unhealthy"%string) /\
  (forall x : Q, 250.4 < x -> pm25_to_aqi_category x = "Hazardous"%string) /\
  (forall x y : Q,
      x <= y ->
      (severity (pm25_to_aqi_category x)
       <= severity (pm25_to_aqi_category y))%nat) /\
  pm25_to_aqi_category 12.0 = "Good"%string /\
  pm25_to_aqi_category 12.1 = "Moderate"%string /\
  pm25_to_aqi_category 35.4 = "Moderate"%string /\
  pm25_to_aqi_category 35.5 = "Unhealthy for Sensitive Groups"%string /\
  pm25_to_aqi_category 400 = "Hazardous"%string.
Proof.
  repeat split; try reflexivity; try apply category_monotone;
    intros x; intros;
    destruct (category_cases x) as [C|[C|[C|[C|[C|C]]]]];
    repeat match goal with H : _ /\ _ |- _ => destruct H end;
    first [ assumption | exfalso; lra ].
Qed.

Lemma C7_aqi_category_step_function_witness :
  pm25_to_aqi_category 20.0 = "Moderate"%string /\
  (severity (pm25_to_aqi_category 20.0)
   <= severity (pm25_to_aqi_category 300.0))%nat.
Proof.
  destruct C7_aqi_category_step_function
    as (_ & Hmoderate & _ & _ & _ & _ & Hmono & _).
  split.
  - apply Hmoderate; lra.
  - apply Hmono. lra.
Defined.

(** C10.  [pm25_to_aqi_category] answers on every rational input with one
    of the six categories, and with "Good" on every input up to 12.0,
    the negative ones included. *)
Theorem C10_aqi_category_total :
  (forall x : Q, In (pm25_to_aqi_category x) AQI_CATEGORIES) /\
  (forall x : Q, x <= 12.0 -> pm25_to_aqi_category x = "Good"%string) /\
  (forall x : Q, x < 0 -> pm25_to_aqi_category x = "Good"%string).
Proof.
  split; [|split].
  - intros x. unfold pm25_to_aqi_category, AQI_CATEGORIES.
    breakpoints; simpl; tauto.
  - intros x H. unfold pm25_to_aqi_category.
    apply Qle_bool_iff in H. now rewrite H.
  - intros x H. unfold pm25_to_aqi_category.
    assert (H' : x <= 12.0) by lra.
    apply Qle_bool_iff in H'. now rewrite H'.
Qed.

Lemma C10_aqi_category_total_witness :
  pm25_to_aqi_category (-5) = "Good"%string /\
  In (pm25_to_aqi_category (-5)) AQI_CATEGORIES.
Proof.
  destruct C10_aqi_category_total as (Hin & _ & Hneg).
  split.
  - apply Hneg. lra.
  - apply Hin.
Defined.

(** ** predict *)

(** C8.  With a model loaded, [predict] answers every request, whatever
    the model returns for it: predicted_pm25 is the raw output clamped
    below at 0 and then rounded to one decimal (a number of tenths at most
    0.05 away from the clamped value), so it is never negative, and it is 0
    when the raw output is negative; the category is that of the rounded
    value. *)
Theorem C8_prediction_clamped_and_rounded :
  forall (model : Model) (request : PredictRequest),
    exists response : PredictResponse,
      predict (Some model) request = inr response /\
      predicted_pm25 response
      = Py.round (Qmax (model (features request)) 0) 1 /\
      - (1 # 20) <= predicted_pm25 response - Qmax (model (features request)) 0 /\
      predicted_pm25 response - Qmax (model (features request)) 0 <= 1 # 20 /\
      (exists tenths : Z, (0 <= tenths)%Z /\
                          predicted_pm25 response == inject_Z tenths / 10) /\
      0 <= predicted_pm25 response /\
      (model (features request) < 0 -> predicted_pm25 response = 0) /\
      aqi_category response = pm25_to_aqi_category (predicted_pm25 response).
Proof.
  intros model request. eexists. split; [reflexivity|]. simpl.
  set (raw := model (features request)).
  assert (Hr : Py.round (Py.max raw 0) 1 = Py.round (Qmax raw 0) 1)
    by apply round_comp, max_Qmax.
  rewrite Hr.
  assert (H0 : 0 <= Qmax raw 0) by apply Q.le_max_r.
  destruct (round1_near (Qmax raw 0)) as (Ht & Hlo & Hhi).
  repeat split; try assumption.
  - exists (Py.rint (Qmax raw 0 * 10)). split; [|assumption].
    apply rint_nonneg. apply Qmult_le_0_compat; lra.
  - now apply round_nonneg.
  - intros Hneg.
    rewrite (round_comp (Qmax raw 0) 0); [reflexivity|].
    apply Q.max_r. lra.
Qed.

Lemma C8_prediction_clamped_and_rounded_witness :
  exists response : PredictResponse,
    predict (Some (fun _ => - (37 # 10))) (Build_PredictRequest 45 38 42 55 41.7 44 3 1)
    = inr response /\
    predicted_pm25 response = 0.
Proof.
  destruct (C8_prediction_clamped_and_rounded
              (fun _ => - (37 # 10))
              (Build_PredictRequest 45 38 42 55 41.7 44 3 1))
    as (response & Hp & _ & _ & _ & _ & _ & Hneg & _).
  exists response. split; [exact Hp|].
  apply Hneg. reflexivity.
Defined.

Example predict_sample :
  predict (Some (fun row => Qsum row / 4))
          (Build_PredictRequest 45 38 42 55 41.7 44 3 1)
  = inr {| city := "Skopje"; predicted_pm25 := 337 # 5;
           aqi_category := "Unhealthy"; unit_ := "µg/m³" |}.
Proof. reflexivity. Qed.

(** ** Start-up without a usable model *)






(** * Further properties of the service *)

(** ** Rounding keeps the order *)

Lemma rint_bounds (q : Q) :
  (Qfloor q <= Py.rint q <= Qfloor q + 1)%Z.
Proof.
  unfold Py.rint.
  destruct (Qcompare _ _); [destruct (Z.even _)| |]; lia.
Qed.

Lemma rint_mono (x y : Q) : x <= y -> (Py.rint x <= Py.rint y)%Z.
Proof.
  intros H.
  pose proof (Qfloor_resp_le _ _ H) as Hf.
  destruct (Z.eq_dec (Qfloor x) (Qfloor y)) as [E|E].
  - unfold Py.rint. rewrite <- E.
    destruct (Qcompare_spec (x - inject_Z (Qfloor x)) (1 # 2)) as [Ex|Ex|Ex];
      destruct (Qcompare_spec (y - inject_Z (Qfloor x)) (1 # 2)) as [Ey|Ey|Ey];
      try destruct (Z.even (Qfloor x)); try lia; exfalso; lra.
  - pose proof (rint_bounds x). pose proof (rint_bounds y). lia.
Qed.

Lemma round_mono (x y : Q) (n : nat) :
  x <= y -> Py.round x n <= Py.round y n.
Proof.
  intros H. unfold Py.round. cbv zeta. rewrite !Qred_correct.
  assert (Hs : 0 < inject_Z (10 ^ Z.of_nat n)).
  { change 0 with (inject_Z 0). rewrite <- Zlt_Qlt.
    apply Z.pow_pos_nonneg; lia. }
  apply Qmult_le_compat_r; [|apply Qinv_le_0_compat; lra].
  rewrite <- Zle_Qle. apply rint_mono.
  apply Qmult_le_compat_r; lra.
Qed.

Lemma max_mono (x y : Q) : x <= y -> Py.max x 0 <= Py.max y 0.
Proof.
  intros H. rewrite !max_Qmax. apply Q.max_le_compat_r. exact H.
Qed.

(** X12.  The answer of [predict] follows the model: of two requests,
    the one with the larger raw output gets a predicted value at least as
    large and a category at least as severe. *)
Theorem predict_monotone :
  forall (model : Model) (r1 r2 : PredictRequest),
    model (features r1) <= model (features r2) ->
    exists p1 p2 : PredictResponse,
      predict (Some model) r1 = inr p1 /\
      predict (Some model) r2 = inr p2 /\
      predicted_pm25 p1 <= predicted_pm25 p2 /\
      (severity (aqi_category p1) <= severity (aqi_category p2))%nat.
Proof.
  intros model r1 r2 H. do 2 eexists.
  split; [reflexivity|]. split; [reflexivity|]. simpl.
  assert (Hp : Py.round (Py.max (model (features r1)) 0) 1
               <= Py.round (Py.max (model (features r2)) 0) 1)
    by now apply round_mono, max_mono.
  split; [exact Hp|]. now apply category_monotone.
Qed.

Lemma predict_monotone_witness :
  exists p1 p2 : PredictResponse,
    predict (Some (fun row => Qsum row / 4)) sample_request = inr p1 /\
    predict (Some (fun row => Qsum row / 4))
            (Build_PredictRequest 45 38 42 55 41.7 44 3 1) = inr p2 /\
    predicted_pm25 p1 <= predicted_pm25 p2 /\
    (severity (aqi_category p1) <= severity (aqi_category p2))%nat.
Proof.
  apply (predict_monotone (fun row => Qsum row / 4) sample_request
           (Build_PredictRequest 45 38 42 55 41.7 44 3 1)).
  vm_compute. discriminate.
Defined.

(** ** Readiness *)



(** ** The rows of the dataset are acceptable requests *)

Lemma Qsum_acc_nonneg (l : list Q) (acc : Q) :
  0 <= acc -> Forall (fun q => 0 <= q) l -> 0 <= fold_left Qplus l acc.
Proof.
  intros Ha Hl. revert acc Ha.
  induction Hl as [|q l Hq Hl IH]; intros acc Ha; simpl; [assumption|].
  apply IH. lra.
Qed.

Lemma mean_nonneg (l : list Q) : Forall (fun q => 0 <= q) l -> 0 <= mean l.
Proof.
  intros H. unfold mean, Qsum.
  pose proof (Qsum_acc_nonneg l 0 ltac:(lra) H) as Hs.
  destruct l as [|q l]; [vm_compute; discriminate|].
  apply Qle_shift_div_l; [|lra].
  change 0 with (inject_Z 0). rewrite <- Zlt_Qlt. simpl length. lia.
Qed.

Lemma observations_nonneg (s : Series) :
  Forall cell_nonneg s -> Forall (fun q => 0 <= q) (observations s).
Proof.
  induction 1 as [|[|q] s Hc Hs IH]; simpl; auto.
Qed.

Lemma shift_cell (k : Z) (s : Series) (i : nat) (c : cell) :
  Forall cell_nonneg s -> shift k s !! i = Some c -> cell_nonneg c.
Proof.
  intros Hs H. unfold shift in H.
  assert (Hrep : forall n j x, replicate n NaN !! j = Some x -> cell_nonneg x).
  { intros n j x Hx. apply lookup_replicate in Hx as [-> _]. exact I. }
  destruct (0 <=? k)%Z.
  - apply lookup_take_Some in H as [H _].
    apply lookup_app_Some in H as [H|[_ H]]; [now apply Hrep in H|].
    exact (proj1 (Forall_lookup _ _) Hs _ _ H).
  - apply lookup_app_Some in H as [H|[_ H]]; [|now apply Hrep in H].
    rewrite lookup_drop in H.
    exact (proj1 (Forall_lookup _ _) Hs _ _ H).
Qed.

Lemma rolling_cell (w : nat) (s : Series) (i : nat) (c : cell) :
  Forall cell_nonneg s ->
  series_round 1 (rolling_mean w s) !! i = Some c -> cell_nonneg c.
Proof.
  intros Hs H. unfold series_round in H.
  rewrite list_lookup_fmap in H.
  destruct (rolling_mean w s !! i) as [x|] eqn:Hx; [|discriminate].
  simpl in H. injection H as <-.
  assert (Hi : (i < length s)%nat).
  { apply lookup_lt_Some in Hx. now rewrite rolling_mean_length in Hx. }
  rewrite rolling_mean_lookup in Hx by assumption. cbv zeta in Hx.
  injection Hx as <-.
  destruct (_ <? _)%nat; [exact I|]. simpl.
  apply round_nonneg, mean_nonneg, observations_nonneg.
  unfold window. now apply Forall_drop, Forall_take.
Qed.

Lemma get_take_rows name rows df :
  DataFrame.get name (DataFrame.take_rows rows df)
  = col_pick rows <$> DataFrame.get name df.
Proof.
  induction df as [|[n c] rest IH]; [reflexivity|]. simpl.
  destruct (String.eqb n name); [reflexivity|exact IH].
Qed.

Lemma pick_from {A : Type} (rows : list nat) (l : list A) (j : nat) (x : A) :
  pick rows l !! j = Some x -> exists i, l !! i = Some x.
Proof.
  revert j. induction rows as [|r rows IH]; intros j H; [discriminate H|].
  rewrite pick_cons in H.
  destruct (l !! r) as [y|] eqn:Hy; [|now apply (IH j)].
  destruct j as [|j]; [injection H as <-; eauto|]. now apply (IH j).
Qed.

(** A value read off a row of [take_rows] is a value of the column. *)
Lemma float_at_take_rows rows df name j q :
  float_at (DataFrame.take_rows rows df) name j = Some q ->
  exists i, float_at df name i = Some q.
Proof.
  unfold float_at. rewrite get_take_rows.
  destruct (DataFrame.get name df) as [[s|l|l]|]; try discriminate. simpl.
  destruct (pick rows s !! j) as [[|q']|] eqn:Hp; try discriminate.
  intros H. injection H as ->.
  destruct (pick_from _ _ _ _ Hp) as [i Hi]. exists i. now rewrite Hi.
Qed.

Lemma int_at_take_rows rows df name j z :
  int_at (DataFrame.take_rows rows df) name j = Some z ->
  exists i, int_at df name i = Some z.
Proof.
  unfold int_at. rewrite get_take_rows.
  destruct (DataFrame.get name df) as [[s|l|l]|]; try discriminate. simpl.
  intros H. exact (pick_from _ _ _ _ H).
Qed.

Lemma preprocess_dropna date s :
  preprocess (daily_frame date s)
  = Some (DataFrame.dropna (kept_table date s)).
Proof. reflexivity. Qed.

Lemma float_at_kept date s name i q :
  Forall cell_nonneg s ->
  In name [ "pm25"; "pm25_lag_1"; "pm25_lag_2"; "pm25_lag_7";
            "pm25_rolling_3"; "pm25_rolling_7" ]%string ->
  float_at (kept_table date s) name i = Some q -> 0 <= q.
Proof.
  intros Hs Hname H. unfold float_at in H.
  assert (Hcell : forall col : Series,
             DataFrame.get name (kept_table date s) = Some (Float64 col) ->
             forall c, col !! i = Some c -> cell_nonneg c).
  { intros col Hg c Hc. simpl in Hname.
    destruct Hname as [<-|[<-|[<-|[<-|[<-|[<-|[]]]]]]];
      injection Hg as <-.
    - exact (proj1 (Forall_lookup _ _) Hs _ _ Hc).
    - exact (shift_cell _ _ _ _ Hs Hc).
    - exact (shift_cell _ _ _ _ Hs Hc).
    - exact (shift_cell _ _ _ _ Hs Hc).
    - exact (rolling_cell _ _ _ _ Hs Hc).
    - exact (rolling_cell _ _ _ _ Hs Hc). }
  destruct (DataFrame.get name (kept_table date s)) as [[col|l|l]|];
    try discriminate.
  destruct (col !! i) as [[|q']|] eqn:Hc; try discriminate.
  injection H as ->. exact (Hcell col eq_refl _ Hc).
Qed.

(** X14.  Made from measurements that are not negative, every row of the
    processed dataset is a request the service accepts: its six pm25
    fields are not negative, its day_of_week is in 0..6 and its month in
    1..12. *)
Theorem processed_rows_are_valid_requests :
  forall (date : list Z) (s : Series) (out : DataFrame.t)
         (i : nat) (request : PredictRequest),
    Forall cell_nonneg s ->
    preprocess (daily_frame date s) = Some out ->
    observation out i = Some request ->
    request_valid request = true.
Proof.
  intros date s out i request Hs Hout H.
  rewrite preprocess_dropna in Hout. injection Hout as <-.
  unfold DataFrame.dropna in H. unfold observation in H.
  set (rows := DataFrame.complete_rows (kept_table date s)) in *.
  destruct (float_at _ "pm25" i) as [a|] eqn:Ea; [|discriminate].
  destruct (float_at _ "pm25_lag_1" i) as [b|] eqn:Eb; [|discriminate].
  destruct (float_at _ "pm25_lag_2" i) as [c|] eqn:Ec; [|discriminate].
  destruct (float_at _ "pm25_lag_7" i) as [d|] eqn:Ed; [|discriminate].
  destruct (float_at _ "pm25_rolling_3" i) as [e|] eqn:Ee; [|discriminate].
  destruct (float_at _ "pm25_rolling_7" i) as [f|] eqn:Ef; [|discriminate].
  destruct (int_at _ "day_of_week" i) as [g|] eqn:Eg; [|discriminate].
  destruct (int_at _ "month" i) as [h|] eqn:Eh; [|discriminate].
  simpl in H. injection H as <-.
  unfold request_valid. cbn [pm25 pm25_lag_1 pm25_lag_2 pm25_lag_7
                             pm25_rolling_3 pm25_rolling_7 day_of_week month_].
  apply float_at_take_rows in Ea as [ia Ea], Eb as [ib Eb], Ec as [ic Ec],
    Ed as [id Ed], Ee as [ie Ee], Ef as [jf Ef].
  apply int_at_take_rows in Eg as [ig Eg], Eh as [ih Eh].
  apply float_at_kept in Ea, Eb, Ec, Ed, Ee, Ef;
    try assumption; try (simpl; auto 8; fail).
  apply Qle_bool_iff in Ea, Eb, Ec, Ed, Ee, Ef.
  rewrite Ea, Eb, Ec, Ed, Ee, Ef. cbn [andb].
  unfold int_at, kept_table in Eg, Eh. simpl in Eg, Eh.
  rewrite !list_lookup_fmap in Eg, Eh.
  destruct (date !! ig) as [dg|]; [|discriminate].
  destruct (date !! ih) as [dh|]; [|discriminate].
  simpl in Eg, Eh. injection Eg as <-. injection Eh as <-.
  pose proof (dayofweek_range (dg + 1)).
  pose proof (month_range (dh + 1)).
  repeat (apply andb_true_iff; split); lia.
Qed.

Lemma processed_rows_are_valid_requests_witness :
  request_valid sample_request = true.
Proof.
  apply (processed_rows_are_valid_requests
           sample_dates sample_pm25 sample_processed 0 sample_request).
  - repeat constructor; vm_compute; discriminate.
  - reflexivity.
  - reflexivity.
Defined.

Local Close Scope Q_scope.

(** * Further properties of the data collection and aggregation *)

(** ** aggregate_daily *)

Lemma insert_key_In d keys x :
  In x (insert_key d keys) <-> x = d \/ In x keys.
Proof.
  induction keys as [|k rest IH]; simpl; [intuition|].
  destruct (Z.ltb_spec d k); [simpl; intuition|].
  destruct (Z.eqb_spec d k) as [->|]; simpl; [intuition|].
  rewrite IH. intuition.
Qed.

Lemma insert_key_sorted d keys :
  StronglySorted Z.lt keys -> StronglySorted Z.lt (insert_key d keys).
Proof.
  induction 1 as [|k rest Hrest IH Hk]; simpl; [repeat constructor|].
  destruct (Z.ltb_spec d k).
  - constructor; [now constructor|]. constructor; [assumption|].
    eapply Forall_impl; [exact Hk|]. simpl. intros; lia.
  - destruct (Z.eqb_spec d k); [now constructor|].
    constructor; [assumption|].
    apply List.Forall_forall. intros x Hx.
    apply insert_key_In in Hx as [->|Hx]; [lia|].
    exact (proj1 (List.Forall_forall _ _) Hk x Hx).
Qed.

Lemma group_keys_sorted raw : StronglySorted Z.lt (group_keys raw).
Proof.
  induction raw as [|m raw IH]; simpl; [constructor|].
  now apply insert_key_sorted.
Qed.

Lemma group_keys_In raw d :
  In d (group_keys raw) <-> exists m, In m raw /\ dt_date (datetime m) = d.
Proof.
  induction raw as [|m raw IH]; simpl.
  - split; [intros []|intros (m & [] & _)].
  - rewrite insert_key_In, IH. split.
    + intros [->|(m' & Hin & Hd)]; eauto.
    + intros (m' & [<-|Hin] & Hd); [now left|right; eauto].
Qed.

Lemma observations_nil (s : Series) :
  observations s = [] <-> forall c, In c s -> c = NaN.
Proof.
  induction s as [|[|q] s IH]; simpl.
  - split; [intros _ c []|reflexivity].
  - rewrite IH. split.
    + intros H c [<-|Hc]; [reflexivity|now apply H].
    + intros H c Hc. apply H. now right.
  - split; [discriminate|].
    intros H. discriminate (H (Num q) (or_introl eq_refl)).
Qed.

Lemma group_values_In d raw c :
  In c (group_values d raw)
  <-> exists m, In m raw /\ dt_date (datetime m) = d /\ value m = c.
Proof.
  unfold group_values. rewrite in_map_iff. split.
  - intros (m & Hv & Hm). apply filter_In in Hm as [Hm Hd].
    exists m. split; [assumption|]. split; [now apply Z.eqb_eq|assumption].
  - intros (m & Hm & Hd & Hv). exists m. split; [assumption|].
    apply filter_In. split; [assumption|now apply Z.eqb_eq].
Qed.

(** The rounded mean of a day is NaN exactly when the day has no value. *)
Lemma daily_cell_NaN d raw :
  match group_mean d raw with
  | NaN => NaN
  | Num q => Num (Py.round q 1)
  end = NaN
  <-> observations (group_values d raw) = [].
Proof.
  unfold group_mean.
  destruct (observations (group_values d raw)); split;
    first [reflexivity|discriminate].
Qed.

Lemma aggregate_daily_lookup raw i d :
  group_keys raw !! i = Some d ->
  series_round 1 (map (fun d => group_mean d raw) (group_keys raw)) !! i
  = Some match group_mean d raw with
         | NaN => NaN
         | Num q => Num (Py.round q 1)
         end.
Proof.
  intros Hi. unfold series_round. now rewrite !list_lookup_fmap, Hi.
Qed.

(** X15.  [aggregate_daily] returns one record per day that has a
    measurement, and no other, with strictly increasing dates and as many
    pm25 cells as dates; the pm25 of a day is NaN exactly when none of the
    measurements of that day has a value.  No measurement gives no record,
    and the rest of the main block accepts the frame. *)
Theorem aggregate_daily_one_record_per_day :
  forall raw : list Measurement,
    exists (date : list Z) (pm25 : Series),
      aggregate_daily raw = daily_frame date pm25 /\
      Sorted Z.lt date /\
      (forall d, In d date
                 <-> exists m, In m raw /\ dt_date (datetime m) = d) /\
      length pm25 = length date /\
      (forall i d,
          date !! i = Some d ->
          exists c : cell,
            pm25 !! i = Some c /\
            (c = NaN
             <-> forall m, In m raw -> dt_date (datetime m) = d ->
                           value m = NaN)) /\
      (raw = [] -> date = []) /\
      exists out, preprocess (aggregate_daily raw) = Some out.
Proof.
  intros raw.
  exists (group_keys raw),
    (series_round 1 (map (fun d => group_mean d raw) (group_keys raw))).
  split; [reflexivity|].
  split; [apply StronglySorted_Sorted, group_keys_sorted|].
  split; [apply group_keys_In|].
  split; [now rewrite series_round_length, length_map|].
  split; [|split].
  - intros i d Hi. eexists. split; [exact (aggregate_daily_lookup raw i d Hi)|].
    rewrite daily_cell_NaN, observations_nil. split.
    + intros H m Hm Hd. apply H, group_values_In. eauto.
    + intros H c Hc. apply group_values_In in Hc as (m & Hm & Hd & <-).
      now apply H.
  - intros ->. reflexivity.
  - eexists. apply preprocess_dropna.
Qed.

Lemma aggregate_daily_one_record_per_day_witness :
  exists (date : list Z) (pm25 : Series),
    aggregate_daily sample_raw = daily_frame date pm25 /\
    Sorted Z.lt date /\
    (forall d, In d date
               <-> exists m, In m sample_raw /\ dt_date (datetime m) = d) /\
    length pm25 = length date /\
    (forall i d,
        date !! i = Some d ->
        exists c : cell,
          pm25 !! i = Some c /\
          (c = NaN
           <-> forall m, In m sample_raw -> dt_date (datetime m) = d ->
                         value m = NaN)) /\
    (sample_raw = [] -> date = []) /\
    exists out, preprocess (aggregate_daily sample_raw) = Some out.
Proof. exact (aggregate_daily_one_record_per_day sample_raw). Defined.

Example aggregate_daily_sample :
  aggregate_daily sample_raw
  = daily_frame [19778; 19779] [Num (45 # 1); Num (38 # 1)].
Proof. vm_compute. reflexivity. Qed.

(** ** The order of the raw rows and the days of the frame *)

Lemma sorted_same_elements (l1 l2 : list Z) :
  StronglySorted Z.lt l1 -> StronglySorted Z.lt l2 ->
  (forall x, In x l1 <-> In x l2) -> l1 = l2.
Proof.
  intros H1. revert l2.
  induction H1 as [|a l1 Hl1 IH Ha]; intros l2 H2 Heq.
  - destruct l2 as [|b l2]; [reflexivity|].
    destruct (proj2 (Heq b) (or_introl eq_refl)).
  - destruct H2 as [|b l2 Hl2 Hb].
    + destruct (proj1 (Heq a) (or_introl eq_refl)).
    + rewrite List.Forall_forall in Ha, Hb.
      assert (Eab : a = b).
      { destruct (proj1 (Heq a) (or_introl eq_refl)) as [E|Hin]; [auto|].
        destruct (proj2 (Heq b) (or_introl eq_refl)) as [E|Hin']; [auto|].
        pose proof (Hb a Hin). pose proof (Ha b Hin'). lia. }
      subst b. f_equal. apply IH; [assumption|].
      intros x. split; intros Hx.
      * destruct (proj1 (Heq x) (or_intror Hx)) as [E|Hin]; [|assumption].
        pose proof (Ha x Hx). lia.
      * destruct (proj2 (Heq x) (or_intror Hx)) as [E|Hin]; [|assumption].
        pose proof (Hb x Hx). lia.
Qed.

Lemma group_keys_Permutation raw raw' :
  Permutation raw raw' -> group_keys raw = group_keys raw'.
Proof.
  intros HP.
  apply sorted_same_elements; try apply group_keys_sorted.
  intros x. rewrite !group_keys_In.
  split; intros (m & Hin & Hd); exists m; split; try assumption.
  - now rewrite <- HP.
  - now rewrite HP.
Qed.

Lemma observations_Permutation (s s' : Series) :
  Permutation s s' -> Permutation (observations s) (observations s').
Proof.
  induction 1 as [|[|q] s s' HP IH|[|q] [|q'] s|s s' s'' H1 IH1 H2 IH2];
    simpl; try reflexivity; try assumption.
  - now constructor.
  - apply perm_swap.
  - now transitivity (observations s').
Qed.

Lemma group_values_Permutation d raw raw' :
  Permutation raw raw' ->
  Permutation (group_values d raw) (group_values d raw').
Proof.
  intros HP. unfold group_values.
  apply Permutation_map.
  induction HP as [|m l l' HP IH|m m' l|l l' l'' H1 IH1 H2 IH2]; simpl.
  - constructor.
  - destruct (_ =? d); [now constructor|assumption].
  - destruct (dt_date (datetime m) =? d), (dt_date (datetime m') =? d);
      try reflexivity. apply perm_swap.
  - now transitivity (List.filter (fun m => dt_date (datetime m) =? d) l').
Qed.

(** X16.  Rearranging the raw measurements changes neither the days of
    the daily frame nor which of them have a value: the two frames have
    the same date column, and a pm25 cell is NaN in one exactly when the
    cell of the same row is NaN in the other. *)
Theorem aggregate_daily_days_ignore_row_order :
  forall raw raw' : list Measurement,
    Permutation raw raw' ->
    exists (date : list Z) (pm25 pm25' : Series),
      aggregate_daily raw = daily_frame date pm25 /\
      aggregate_daily raw' = daily_frame date pm25' /\
      length pm25 = length date /\
      length pm25' = length date /\
      (forall i : nat, pm25 !! i = Some NaN <-> pm25' !! i = Some NaN).
Proof.
  intros raw raw' HP.
  exists (group_keys raw),
    (series_round 1 (map (fun d => group_mean d raw) (group_keys raw))),
    (series_round 1 (map (fun d => group_mean d raw') (group_keys raw))).
  split; [reflexivity|].
  split; [unfold aggregate_daily; cbv zeta;
          now rewrite <- (group_keys_Permutation _ _ HP)|].
  split; [now rewrite series_round_length, length_map|].
  split; [now rewrite series_round_length, length_map|].
  intros i.
  destruct (group_keys raw !! i) as [d|] eqn:Hi.
  - rewrite (aggregate_daily_lookup raw i d Hi).
    assert (Hi' : group_keys raw' !! i = Some d)
      by now rewrite <- (group_keys_Permutation _ _ HP).
    pose proof (aggregate_daily_lookup raw' i d Hi') as Hl.
    rewrite <- (group_keys_Permutation _ _ HP) in Hl. rewrite Hl.
    assert (Hd : forall c : cell, Some c = Some NaN <-> c = NaN)
      by (intros c; split; [now intros [= ->]|now intros ->]).
    rewrite !Hd, !daily_cell_NaN.
    pose proof (observations_Permutation _ _
                  (group_values_Permutation d _ _ HP)) as Hobs.
    split; intros H; rewrite H in Hobs.
    + now apply Permutation_nil in Hobs.
    + symmetry in Hobs. now apply Permutation_nil in Hobs.
  - assert (Hn : forall raw0 : list Measurement,
               series_round 1 (map (fun d => group_mean d raw0) (group_keys raw))
               !! i = None).
    { intros raw0. unfold series_round.
      now rewrite !list_lookup_fmap, Hi. }
    rewrite !Hn. split; discriminate.
Qed.

Lemma aggregate_daily_days_ignore_row_order_witness :
  exists (date : list Z) (pm25 pm25' : Series),
    aggregate_daily sample_raw = daily_frame date pm25 /\
    aggregate_daily (rev sample_raw) = daily_frame date pm25' /\
    length pm25 = length date /\
    length pm25' = length date /\
    (forall i : nat, pm25 !! i = Some NaN <-> pm25' !! i = Some NaN).
Proof.
  apply (aggregate_daily_days_ignore_row_order sample_raw (rev sample_raw)).
  apply Permutation_rev.
Defined.

(** ** collect_data.py: paging through the API *)

Section Fetch.

Context {R : Type}.

Lemma fetch_loop_paged (l : list R) (limit : nat) :
  (0 < limit)%nat ->
  forall fuel p,
    (p * limit < length l)%nat ->
    (length l <= (fuel + p) * limit)%nat ->
    fetch_loop fuel (paged l limit) (p + 1) (take (p * limit) l)
    = Some (inr l).
Proof.
  intros Hlimit. induction fuel as [|fuel IH]; intros p Hp Hfuel.
  - simpl in Hfuel. lia.
  - cbn [fetch_loop]. unfold paged at 1.
    replace (p + 1 - 1)%nat with p by lia.
    destruct (take limit (drop (p * limit) l)) as [|r rest] eqn:Hpage.
    + exfalso.
      assert (Hlen : length (take limit (drop (p * limit) l)) = 0%nat)
        by now rewrite Hpage.
      rewrite length_take, length_drop in Hlen. lia.
    + rewrite <- Hpage. clear Hpage r rest.
      assert (Hacc : take (p * limit) l ++ take limit (drop (p * limit) l)
                     = take ((p + 1) * limit) l).
      { replace ((p + 1) * limit)%nat with (p * limit + limit)%nat by lia.
        now rewrite take_take_drop. }
      cbv zeta. rewrite Hacc.
      change (default 0%nat (Some (length l))) with (length l).
      destruct (Nat.leb_spec (length l) (length (take ((p + 1) * limit) l)))
        as [Hdone|Hmore].
      * rewrite length_take in Hdone.
        rewrite take_ge by lia. reflexivity.
      * rewrite length_take in Hmore.
        replace (p + 1 + 1)%nat with ((p + 1) + 1)%nat by lia.
        apply IH; lia.
Qed.

Lemma fetch_paged (l : list R) (limit fuel : nat) :
  (0 < limit)%nat ->
  (length l <= fuel * limit)%nat ->
  (1 <= fuel)%nat ->
  fetch_from_openaq fuel (paged l limit)
  = Some (inr (match l with [] => None | _ => Some l end)).
Proof.
  intros Hlimit Hfuel H1.
  unfold fetch_from_openaq. destruct l as [|r l].
  - destruct fuel as [|fuel]; [lia|]. cbn [fetch_loop]. unfold paged.
    now rewrite drop_nil, take_nil.
  - pose proof (fetch_loop_paged (r :: l) limit Hlimit fuel 0) as H.
    simpl (0 * limit)%nat in H. rewrite take_0 in H.
    change (0 + 1)%nat with 1%nat in H.
    rewrite H; [reflexivity| simpl; lia |].
    replace (fuel + 0)%nat with fuel by lia. exact Hfuel.
Qed.

(** X17.  Against an API that serves its records in pages of [limit] and
    announces their number, [fetch_from_openaq] returns every record once,
    in the order served, as soon as it may make enough requests; it
    returns None when there is no record.  Against any API, a first page
    that is not empty and comes without [meta.found] ends the loop: that
    page alone is returned. *)
Theorem fetch_from_openaq_collects_all_pages :
  forall (l : list R) (limit fuel : nat),
    (0 < limit)%nat ->
    (length l <= fuel * limit)%nat ->
    (1 <= fuel)%nat ->
    fetch_from_openaq fuel (paged l limit)
    = Some (inr (match l with [] => None | _ => Some l end)) /\
    forall (api : nat -> Response R) (r : R) (rest : list R),
      api 1%nat = Page (r :: rest) None ->
      fetch_from_openaq fuel api = Some (inr (Some (r :: rest))).
Proof.
  intros l limit fuel Hlimit Hfuel H1. split.
  - now apply fetch_paged.
  - intros api r rest Hapi. unfold fetch_from_openaq.
    destruct fuel as [|fuel]; [lia|]. cbn [fetch_loop]. rewrite Hapi.
    reflexivity.
Qed.

(** X18.  The main block always has something to save: the sample data
    when --sample is given (no request is made then), when the first
    request fails, and when the API has no record; the records of the API,
    all of them, otherwise. *)
Theorem collect_main_falls_back_to_sample :
  forall (fuel : nat) (api : nat -> Response R),
    (1 <= fuel)%nat ->
    collect_main true fuel api = Some SampleData /\
    (api 1%nat = HTTPError -> collect_main false fuel api = Some SampleData) /\
    (forall found, api 1%nat = Page [] found ->
                   collect_main false fuel api = Some SampleData) /\
    (forall (l : list R) (limit : nat),
        (0 < limit)%nat -> (length l <= fuel * limit)%nat ->
        collect_main false fuel (paged l limit)
        = Some (match l with [] => SampleData | _ => FromAPI l end)).
Proof.
  intros fuel api H1. split; [reflexivity|].
  destruct fuel as [|fuel]; [lia|].
  split; [|split].
  - intros Hapi. unfold collect_main, fetch_from_openaq. cbn [fetch_loop].
    now rewrite Hapi.
  - intros found Hapi. unfold collect_main, fetch_from_openaq.
    cbn [fetch_loop]. now rewrite Hapi.
  - intros l limit Hlimit Hfuel. unfold collect_main.
    rewrite (fetch_paged l limit (S fuel) Hlimit Hfuel H1).
    now destruct l.
Qed.

End Fetch.

Lemma fetch_from_openaq_collects_all_pages_witness :
  fetch_from_openaq 3 (paged [1; 2; 3; 4; 5]%nat 2)
  = Some (inr (Some [1; 2; 3; 4; 5]%nat)).
Proof.
  refine (proj1 (fetch_from_openaq_collects_all_pages
                   [1; 2; 3; 4; 5]%nat 2 3 _ _ _)); simpl; lia.
Defined.

Lemma collect_main_falls_back_to_sample_witness :
  collect_main false 1 (paged (@nil nat) 100) = Some SampleData.
Proof.
  destruct (collect_main_falls_back_to_sample 1 (paged (@nil nat) 100))
    as (_ & _ & H & _); [lia|].
  apply (H (Some 0%nat)). reflexivity.
Defined.

Local Open Scope Q_scope.

(** ** collect_data.py: the simulated values *)

Lemma clip_range (a lo hi : Q) : lo <= hi -> lo <= clip a lo hi <= hi.
Proof.
  intros H. unfold clip, minimum, maximum.
  destruct (Qle_bool a lo) eqn:E1.
  - apply Qle_bool_iff in E1.
    destruct (Qle_bool lo hi) eqn:E2; split; lra.
  - assert (H1 : ~ a <= lo) by (rewrite <- Qle_bool_iff; congruence).
    apply Qnot_le_lt in H1.
    destruct (Qle_bool a hi) eqn:E2.
    + apply Qle_bool_iff in E2. split; lra.
    + split; lra.
Qed.

Lemma clip_inside (a lo hi : Q) : lo <= a -> a <= hi -> clip a lo hi == a.
Proof.
  intros H1 H2. unfold clip, minimum, maximum.
  destruct (Qle_bool a lo) eqn:E1.
  - apply Qle_bool_iff in E1.
    assert (E : Qle_bool lo hi = true) by (apply Qle_bool_iff; lra).
    rewrite E. lra.
  - apply Qle_bool_iff in H2. rewrite H2. reflexivity.
Qed.

(** X19.  Whatever concentration the simulation computes, the value
    [generate_sample_data] stores lies between 1 and 350, so it is never
    negative; a concentration already in that range is stored within 0.05
    of itself. *)
Theorem sample_value_in_range :
  forall pm25 : Q,
    1 <= sample_value pm25 /\
    sample_value pm25 <= 350 /\
    Qle_bool 0 (sample_value pm25) = true /\
    (1 <= pm25 -> pm25 <= 350 ->
     - (1 # 20) <= sample_value pm25 - pm25 /\
     sample_value pm25 - pm25 <= 1 # 20).
Proof.
  intros pm25. unfold sample_value.
  destruct (clip_range pm25 1 350 ltac:(lra)) as [Hlo Hhi].
  assert (H1 : 1 <= Py.round (clip pm25 1 350) 1).
  { change 1 with (Py.round 1 1) at 1. now apply round_mono. }
  assert (H350 : Py.round (clip pm25 1 350) 1 <= 350).
  { change 350 with (Py.round 350 1) at 2. now apply round_mono. }
  split; [exact H1|]. split; [exact H350|].
  split; [apply Qle_bool_iff; lra|].
  intros Ha Hb.
  rewrite (round_comp _ _ 1 (clip_inside pm25 1 350 Ha Hb)).
  destruct (round1_near pm25) as (_ & Hn1 & Hn2). split; assumption.
Qed.

Lemma sample_value_in_range_witness :
  - (1 # 20) <= sample_value 41.66 - 41.66 /\
  sample_value 41.66 - 41.66 <= 1 # 20.
Proof.
  destruct (sample_value_in_range 41.66) as (_ & _ & _ & H).
  apply H; vm_compute; discriminate.
Defined.

Example sample_value_clipped :
  sample_value (-12) = 1 /\ sample_value 1000 = 350 /\
  sample_value 41.66 = 417 # 10.
Proof. repeat split; reflexivity. Qed.

Local Close Scope Q_scope.

(** * Further properties of the training data *)

(** ** The features of a row use no later row *)

Lemma lookup_upto (s s' : Series) (i j : nat) :
  take (S i) s = take (S i) s' -> (j <= i)%nat -> s !! j = s' !! j.
Proof.
  intros H Hj.
  rewrite <- (lookup_take_lt s (S i) j), <- (lookup_take_lt s' (S i) j) by lia.
  now rewrite H.
Qed.

Lemma shift_down_upto (k : nat) (s s' : Series) (i : nat) :
  (i < length s)%nat -> (i < length s')%nat ->
  take (S i) s = take (S i) s' ->
  shift (Z.of_nat k) s !! i = shift (Z.of_nat k) s' !! i.
Proof.
  intros Hi Hi' H. rewrite !shift_down_lookup by assumption.
  destruct (i <? k)%nat; [reflexivity|].
  apply (lookup_upto s s' i); [assumption|lia].
Qed.

Lemma rolling_upto (w : nat) (s s' : Series) (i : nat) :
  (i < length s)%nat -> (i < length s')%nat ->
  take (S i) s = take (S i) s' ->
  series_round 1 (rolling_mean w s) !! i
  = series_round 1 (rolling_mean w s') !! i.
Proof.
  intros Hi Hi' H. unfold series_round.
  rewrite !list_lookup_fmap, !rolling_mean_lookup by assumption.
  unfold window. now rewrite H.
Qed.

(** X20.  No feature looks ahead: the eight features of row [i] are the
    same for two series that agree up to row [i], whatever comes after
    it. *)
Theorem features_do_not_look_ahead :
  forall (date : list Z) (s s' : Series) (i : nat),
    (i < length s)%nat -> (i < length s')%nat ->
    take (S i) s = take (S i) s' ->
    exists full full' X X' : DataFrame.t,
      feature_table (daily_frame date s) = Some full /\
      feature_table (daily_frame date s') = Some full' /\
      DataFrame.select FEATURE_COLUMNS full = Some X /\
      DataFrame.select FEATURE_COLUMNS full' = Some X' /\
      DataFrame.feature_row X i = DataFrame.feature_row X' i.
Proof.
  intros date s s' i Hi Hi' H.
  exists (full_table date s), (full_table date s').
  do 2 eexists.
  split; [apply feature_table_eq|]. split; [apply feature_table_eq|].
  split; [reflexivity|]. split; [reflexivity|].
  unfold DataFrame.feature_row. cbn [mapM snd col_float].
  rewrite (lookup_upto s s' i i H) by lia.
  change (shift 1 s) with (shift (Z.of_nat 1) s).
  change (shift 2 s) with (shift (Z.of_nat 2) s).
  change (shift 7 s) with (shift (Z.of_nat 7) s).
  change (shift 1 s') with (shift (Z.of_nat 1) s').
  change (shift 2 s') with (shift (Z.of_nat 2) s').
  change (shift 7 s') with (shift (Z.of_nat 7) s').
  rewrite (shift_down_upto 1 s s' i Hi Hi' H),
    (shift_down_upto 2 s s' i Hi Hi' H), (shift_down_upto 7 s s' i Hi Hi' H).
  rewrite (rolling_upto 3 s s' i Hi Hi' H), (rolling_upto 7 s s' i Hi Hi' H).
  reflexivity.
Qed.

Lemma features_do_not_look_ahead_witness :
  exists full full' X X' : DataFrame.t,
    feature_table (daily_frame sample_dates sample_pm25) = Some full /\
    feature_table (daily_frame sample_dates (<[9%nat := NaN]> sample_pm25))
    = Some full' /\
    DataFrame.select FEATURE_COLUMNS full = Some X /\
    DataFrame.select FEATURE_COLUMNS full' = Some X' /\
    DataFrame.feature_row X 8 = DataFrame.feature_row X' 8.
Proof.
  apply (features_do_not_look_ahead sample_dates sample_pm25
           (<[9%nat := NaN]> sample_pm25) 8).
  - simpl. lia.
  - simpl. lia.
  - reflexivity.
Defined.

(** ** From the saved dataset to the training rows *)

Lemma col_float_complete c i :
  col_isna c i = false ->
  match c with Datetime _ => False | _ => True end ->
  exists q, col_float c i = Some (Num q).
Proof.
  destruct c as [s|l|l]; simpl; intros H Hd; [| |destruct Hd].
  - destruct (s !! i) as [[|q]|]; try discriminate. eauto.
  - destruct (l !! i) as [z|]; [|discriminate]. simpl. eauto.
Qed.

(** X21.  [load_data] accepts the dataset [preprocess] makes of a daily
    frame, and every row of it is a training sample without a gap: eight
    feature values, in the order of FEATURE_COLUMNS, and a target value. *)
Theorem training_rows_are_complete :
  forall (date : list Z) (s : Series) (out : DataFrame.t),
    preprocess (daily_frame date s) = Some out ->
    exists (X : DataFrame.t) (y : Column),
      load_data out = Some (X, y) /\
      map fst X = FEATURE_COLUMNS /\
      DataFrame.nrows X = DataFrame.nrows out /\
      col_len y = DataFrame.nrows out /\
      forall i, (i < DataFrame.nrows out)%nat ->
                exists (row : list Q) (target : Q),
                  DataFrame.feature_row X i = Some (map Num row) /\
                  length row = 8%nat /\
                  col_float y i = Some (Num target).
Proof.
  intros date s out H. rewrite preprocess_dropna in H. injection H as <-.
  pose proof (dropna_column (kept_table date s)) as Hcol.
  unfold DataFrame.dropna in *.
  set (rows := DataFrame.complete_rows (kept_table date s)) in *.
  unfold kept_table, DataFrame.take_rows in *. cbn [map fst snd col_pick] in *.
  do 2 eexists. split; [reflexivity|]. split; [reflexivity|].
  cbn [DataFrame.nrows].
  assert (Hlen : forall name c,
             In (name, c)
                [ ("pm25"%string, Float64 (pick rows s));
                  ("pm25_next_day"%string,
                   Float64 (pick rows (shift (-1) s))) ] ->
             col_len c = length rows).
  { intros name c Hin. apply (Hcol name c). simpl in *. intuition. }
  rewrite (Hlen "pm25"%string _ (or_introl eq_refl)).
  split; [reflexivity|].
  split; [apply (Hlen "pm25_next_day"%string); simpl; auto|].
  intros i Hi.
  assert (Hcell : forall name c,
             In (name, c)
                [ ("pm25"%string, Float64 (pick rows s));
                  ("pm25_lag_1"%string, Float64 (pick rows (shift 1 s)));
                  ("pm25_lag_2"%string, Float64 (pick rows (shift 2 s)));
                  ("pm25_lag_7"%string, Float64 (pick rows (shift 7 s)));
                  ("pm25_rolling_3"%string,
                   Float64 (pick rows (series_round 1 (rolling_mean 3 s))));
                  ("pm25_rolling_7"%string,
                   Float64 (pick rows (series_round 1 (rolling_mean 7 s))));
                  ("day_of_week"%string,
                   Int64 (pick rows (map dayofweek (map (fun d => d + 1) date))));
                  ("month"%string,
                   Int64 (pick rows (map month (map (fun d => d + 1) date))));
                  ("pm25_next_day"%string,
                   Float64 (pick rows (shift (-1) s))) ] ->
             match c with Datetime _ => False | _ => True end ->
             exists q, col_float c i = Some (Num q)).
  { intros name c Hin Hd. apply col_float_complete; [|exact Hd].
    now apply (Hcol name c Hin). }
  unfold DataFrame.feature_row. cbn [mapM snd].
  destruct (Hcell "pm25"%string _ ltac:(simpl; auto 12) I) as [q1 ->].
  destruct (Hcell "pm25_lag_1"%string _ ltac:(simpl; auto 12) I) as [q2 ->].
  destruct (Hcell "pm25_lag_2"%string _ ltac:(simpl; auto 12) I) as [q3 ->].
  destruct (Hcell "pm25_lag_7"%string _ ltac:(simpl; auto 12) I) as [q4 ->].
  destruct (Hcell "pm25_rolling_3"%string _ ltac:(simpl; auto 12) I)
    as [q5 ->].
  destruct (Hcell "pm25_rolling_7"%string _ ltac:(simpl; auto 12) I)
    as [q6 ->].
  destruct (Hcell "day_of_week"%string _ ltac:(simpl; auto 12) I) as [q7 ->].
  destruct (Hcell "month"%string _ ltac:(simpl; auto 12) I) as [q8 ->].
  destruct (Hcell "pm25_next_day"%string _ ltac:(simpl; auto 12) I)
    as [t ->].
  exists [q1; q2; q3; q4; q5; q6; q7; q8], t. repeat split.
Qed.

Lemma training_rows_are_complete_witness :
  exists (X : DataFrame.t) (y : Column),
    load_data sample_processed = Some (X, y) /\
    map fst X = FEATURE_COLUMNS /\
    DataFrame.nrows X = DataFrame.nrows sample_processed /\
    col_len y = DataFrame.nrows sample_processed /\
    forall i, (i < DataFrame.nrows sample_processed)%nat ->
              exists (row : list Q) (target : Q),
                DataFrame.feature_row X i = Some (map Num row) /\
                length row = 8%nat /\
                col_float y i = Some (Num target).
Proof.
  apply (training_rows_are_complete sample_dates sample_pm25 sample_processed).
  reflexivity.
Defined.

Local Open Scope Q_scope.

(** ** train.py: the importance report *)

Lemma insert_desc_Permutation p l : Permutation (insert_desc p l) (p :: l).
Proof.
  induction l as [|q rest IH]; simpl; [reflexivity|].
  destruct (Qle_bool (snd p) (snd q)); [|reflexivity].
  rewrite IH. apply perm_swap.
Qed.

Lemma insert_desc_sorted p l :
  StronglySorted (fun a b => snd b <= snd a) l ->
  StronglySorted (fun a b => snd b <= snd a) (insert_desc p l).
Proof.
  induction 1 as [|q rest Hrest IH Hq]; simpl; [repeat constructor|].
  destruct (Qle_bool (snd p) (snd q)) eqn:E.
  - apply Qle_bool_iff in E. constructor; [assumption|].
    rewrite (insert_desc_Permutation p rest). now constructor.
  - assert (Hlt : snd q < snd p).
    { apply Qnot_le_lt. rewrite <- Qle_bool_iff. congruence. }
    constructor; [now constructor|]. constructor; [lra|].
    eapply Forall_impl; [exact Hq|]. simpl. intros; lra.
Qed.

Lemma map_fst_combine {A B : Type} (l : list A) (k : list B) :
  length l = length k -> map fst (combine l k) = l.
Proof.
  revert k. induction l as [|a l IH]; intros [|b k] H; simpl in *;
    try reflexivity; try discriminate.
  f_equal. apply IH. lia.
Qed.

Lemma bar_le (q : Q) :
  0 <= q -> q <= 1 -> (Z.to_nat (Py.int (q * 50)) <= 50)%nat.
Proof.
  intros H0 H1. unfold Py.int.
  assert (Hn : 0 <= q * 50) by (apply Qmult_le_0_compat; lra).
  pose proof (Qfloor_resp_le (q * 50) 50 ltac:(lra)) as Hf.
  destruct (q * 50) as [n d].
  change (Qfloor 50) with 50%Z in Hf. cbn [Qfloor Qnum Qden] in *.
  unfold Qle in Hn. cbn [Qnum Qden] in Hn.
  rewrite Z.quot_div_nonneg by lia. lia.
Qed.

Lemma sorted_desc_spec l :
  Permutation (sorted_desc l) l /\
  StronglySorted (fun a b => snd b <= snd a) (sorted_desc l).
Proof.
  unfold sorted_desc.
  assert (Hgen : forall acc,
             StronglySorted (fun a b => snd b <= snd a) acc ->
             Permutation (fold_left (fun acc p => insert_desc p acc) l acc)
                         (acc ++ l) /\
             StronglySorted (fun a b => snd b <= snd a)
               (fold_left (fun acc p => insert_desc p acc) l acc)).
  { induction l as [|p l IH]; intros acc Hacc; simpl.
    - now rewrite app_nil_r.
    - destruct (IH (insert_desc p acc) (insert_desc_sorted p acc Hacc))
        as [HP HS].
      split; [|exact HS]. rewrite HP, insert_desc_Permutation.
      simpl. apply Permutation_middle. }
  destruct (Hgen [] ltac:(constructor)) as [HP HS]. now split.
Qed.

(** X22.  The importance report has one line per feature that has a
    score, each feature once, in order of decreasing score; the bar of a
    score between 0 and 1 has at most 50 marks. *)
Theorem importance_report_sorted :
  forall importances : list Q,
    let report := show_feature_importance importances in
    Permutation (map (fun line => (fst (fst line), snd (fst line))) report)
                (combine FEATURE_COLUMNS importances) /\
    StronglySorted (fun a b => snd (fst b) <= snd (fst a)) report /\
    (length importances = 8%nat ->
     Permutation (map (fun line => fst (fst line)) report) FEATURE_COLUMNS) /\
    (forall name score bar,
        In (name, score, bar) report ->
        0 <= score -> score <= 1 -> (bar <= 50)%nat).
Proof.
  intros importances report. subst report. unfold show_feature_importance.
  cbv zeta.
  destruct (sorted_desc_spec (combine FEATURE_COLUMNS importances))
    as [HP HS].
  set (pairs := sorted_desc (combine FEATURE_COLUMNS importances)) in *.
  assert (Hmap : map (fun line : string * Q * nat =>
                        (fst (fst line), snd (fst line)))
                   (map (fun p : string * Q =>
                           (fst p, snd p, Z.to_nat (Py.int (snd p * 50))))
                      pairs) = pairs).
  { rewrite List.map_map. simpl. rewrite <- (List.map_id pairs) at 2.
    apply List.map_ext. now intros [n q]. }
  split; [now rewrite Hmap|]. split; [|split].
  - clearbody pairs. clear HP Hmap.
    induction HS as [|p rest Hrest IH Hp]; simpl; constructor; auto.
    rewrite List.Forall_map. simpl. exact Hp.
  - intros Hlen.
    assert (Hfst : map (fun line : string * Q * nat => fst (fst line))
                     (map (fun p : string * Q =>
                             (fst p, snd p, Z.to_nat (Py.int (snd p * 50))))
                        pairs) = map fst pairs).
    { rewrite List.map_map. reflexivity. }
    rewrite Hfst, HP.
    rewrite map_fst_combine; [reflexivity|].
    now rewrite Hlen.
  - intros name score bar Hin H0 H1.
    apply in_map_iff in Hin as ([n q] & E & _). simpl in E.
    injection E as E1 E2 E3. subst. now apply bar_le.
Qed.

Lemma importance_report_sorted_witness :
  Permutation
    (map (fun line : string * Q * nat => fst (fst line))
       (show_feature_importance
          [0.55; 0.12; 0.05; 0.04; 0.08; 0.1; 0.02; 0.04]))
    FEATURE_COLUMNS.
Proof.
  destruct (importance_report_sorted
              [0.55; 0.12; 0.05; 0.04; 0.08; 0.1; 0.02; 0.04])
    as (_ & _ & H & _).
  apply H. reflexivity.
Defined.

Example importance_report_sample :
  map (fun line : string * Q * nat => (fst (fst line), snd line))
    (show_feature_importance
       [0.55; 0.12; 0.05; 0.04; 0.08; 0.1; 0.02; 0.04])
  = [ ("pm25", 27); ("pm25_lag_1", 6); ("pm25_rolling_7", 5);
      ("pm25_rolling_3", 4); ("pm25_lag_2", 2); ("pm25_lag_7", 2);
      ("month", 2); ("day_of_week", 1) ]%string%nat.
Proof. reflexivity. Qed.

Local Close Scope Q_scope.

(** ** From raw measurements to the number of samples *)

(** On a series without NaN, of any length, the complete rows. *)
Lemma complete_rows_defined date s :
  length date = length s ->
  Forall (fun c => isna c = false) s ->
  DataFrame.complete_rows (kept_table date s) = seq 7 (length s - 8).
Proof.
  intros Hlen Hs. unfold DataFrame.complete_rows.
  change (DataFrame.nrows (kept_table date s)) with (length s).
  destruct (Nat.le_gt_cases 8 (length s)) as [H8|H8].
  - replace (length s - 8)%nat with (length s - 1 - 7)%nat by lia.
    apply filter_seq_interval; [lia|lia|].
    intros i Hi. now apply row_complete_kept.
  - replace (length s - 8)%nat with 0%nat by lia. simpl.
    apply filter_seq_none. intros i Hi Hc.
    apply row_complete_kept in Hc; [lia|assumption|assumption|lia].
Qed.

Lemma observations_In (s : Series) (q : Q) :
  In (Num q) s -> In q (observations s).
Proof.
  induction s as [|[|q'] s IH]; simpl; [tauto| |].
  - intros [E|H]; [discriminate|auto].
  - intros [E|H]; [injection E as ->; now left|right; auto].
Qed.

(** X23.  When every measurement falls on a day that has at least one
    value, the dataset made from the raw measurements has 8 rows fewer
    than there are days with measurements (none when there are at most
    8). *)
Theorem samples_from_raw :
  forall raw : list Measurement,
    (forall m, In m raw ->
               exists m' q, In m' raw /\
                            dt_date (datetime m') = dt_date (datetime m) /\
                            value m' = Num q) ->
    exists out : DataFrame.t,
      preprocess (aggregate_daily raw) = Some out /\
      DataFrame.nrows out = (length (group_keys raw) - 8)%nat.
Proof.
  intros raw Hraw. unfold aggregate_daily. cbv zeta.
  set (keys := group_keys raw).
  set (pm25 := series_round 1 (map (fun d => group_mean d raw) keys)).
  assert (Hlen : length keys = length pm25)
    by (subst pm25; now rewrite series_round_length, length_map).
  assert (Hdef : Forall (fun c => isna c = false) pm25).
  { subst pm25. unfold series_round. rewrite List.map_map.
    apply List.Forall_forall. intros c Hc.
    apply in_map_iff in Hc as (d & <- & Hd).
    apply group_keys_In in Hd as (m & Hm & Hmd).
    destruct (Hraw m Hm) as (m' & q & Hm' & Hd' & Hv).
    assert (Hin : In q (observations (group_values d raw))).
    { apply observations_In. unfold group_values. rewrite <- Hv.
      apply in_map. apply filter_In. split; [assumption|].
      apply Z.eqb_eq. congruence. }
    unfold group_mean.
    destruct (observations (group_values d raw)); [destruct Hin|reflexivity]. }
  eexists. split; [apply preprocess_dropna|].
  unfold DataFrame.dropna.
  rewrite (complete_rows_defined keys pm25 Hlen Hdef).
  unfold DataFrame.take_rows, kept_table, DataFrame.nrows. cbn [map fst snd].
  unfold col_pick, col_len.
  destruct (Nat.le_gt_cases 8 (length pm25)) as [H8|H8].
  - rewrite pick_seq by lia. rewrite length_take, length_drop. lia.
  - replace (length pm25 - 8)%nat with 0%nat by lia. simpl. lia.
Qed.

Lemma samples_from_raw_witness :
  exists out : DataFrame.t,
    preprocess (aggregate_daily sample_raw) = Some out /\
    DataFrame.nrows out = (length (group_keys sample_raw) - 8)%nat.
Proof.
  apply (samples_from_raw sample_raw).
  intros m Hm. simpl in Hm.
  destruct Hm as [<-|[<-|[<-|[<-|[]]]]].
  - exists {| datetime := 19779 * 86400 + 3600; value := Num 38.0 |}, 38.0%Q.
    simpl. auto.
  - exists {| datetime := 19778 * 86400 + 7200; value := Num 44.0 |}, 44.0%Q.
    simpl. auto.
  - exists {| datetime := 19779 * 86400 + 3600; value := Num 38.0 |}, 38.0%Q.
    simpl. auto.
  - exists {| datetime := 19778 * 86400 + 7200; value := Num 44.0 |}, 44.0%Q.
    simpl. auto.
Defined.
